(** * ML inference API: registry, request validation and HTTP pipeline

    A shallow embedding of [app/model_loader.py], [app/schemas.py] and
    [app/main.py].  Python objects that the service treats as opaque (the
    classifier, the file system, the wall clock) are inputs of the model;
    everything the repository itself decides (attribute assignment, guards,
    the [try]/[except] blocks, the handlers, the middleware) is written
    out. *)

From Stdlib Require Import Floats.PrimFloat ZArith Lia.
From stdpp Require Import base option list strings.

Set Warnings "-inexact-float".

Local Open Scope string_scope.
Local Open Scope list_scope.

(** ** Python exceptions

    Only the classes the service distinguishes are kept apart; every other
    subclass of [Exception] is [OtherException]. All four are caught by
    [except Exception]. A request validation error carries, beside its
    messages, the numbers of the rejected input that its report repeats. *)
Inductive PyExn : Type :=
| HTTPException (status_code : Z) (detail : string)
| RequestValidationError (errors : list string) (input : list float)
| ValueError (message : string)
| OtherException (message : string).

(** [str(e)] *)
Definition str (e : PyExn) : string :=
  match e with
  | HTTPException _ d => d
  | RequestValidationError errs _ => String.concat "; " errs
  | ValueError m => m
  | OtherException m => m
  end.

(** ** Log records

    One constructor per logging statement of the sources, carrying the
    values its f-string interpolates. Durations are in microseconds. *)
Inductive Level : Type := INFO | WARNING | ERROR.

Inductive LogMsg : Type :=
(* model_loader.py *)
| Model_file_not_found (model_path : string)
| Successfully_loaded_sklearn (model_path : string)
| Failed_to_load_sklearn (e : string)
| Successfully_loaded_pytorch (model_path : string)
| Failed_to_load_pytorch (e : string)
| Created_demo_model
| Failed_to_create_demo (e : string)
| No_model_loaded
| Model_has_no_predict
| Prediction_failed_with (e : string)
| Model_version_set (version : string)
(* main.py *)
| Starting_api
| Loading_model_from_path (model_path : string)
| Failed_to_load_using_demo
| No_model_path_using_demo
| Incoming (request_id method path client : string)
| Outgoing (request_id : string) (status_code : Z) (duration : Z)
| Error_processing (request_id e : string) (duration : Z)
| Health_check_requested
| Requested_but_not_loaded
| Prediction_requested (features : list float)
| Prediction_failed
| Prediction_successful (prediction : float) (probability : option float)
| Validation_error (e : string)
| Unexpected_error (e : string).

Definition LogRecord : Type := Level * LogMsg.

(** ** Computations

    A Python statement sequence run against a mutable state [S]: it returns
    a value or raises, leaves a state behind in both cases (assignments made
    before a [raise] stay), and emits log records. *)
Section Computations.
Context {S : Type}.

Definition Py (A : Type) : Type := S -> (PyExn + A) * S * list LogRecord.

Definition ret {A} (a : A) : Py A := fun s => (inr a, s, []).

Definition raise {A} (e : PyExn) : Py A := fun s => (inl e, s, []).

Definition bind {A B} (c : Py A) (k : A -> Py B) : Py B :=
  fun s =>
    match c s with
    | (inr a, s1, l1) =>
        match k a s1 with
        | (r, s2, l2) => (r, s2, l1 ++ l2)
        end
    | (inl e, s1, l1) => (inl e, s1, l1)
    end.

(** [try: c except Exception as e: h e] *)
Definition try_except {A} (c : Py A) (h : PyExn -> Py A) : Py A :=
  fun s =>
    match c s with
    | (inr a, s1, l1) => (inr a, s1, l1)
    | (inl e, s1, l1) =>
        match h e s1 with
        | (r, s2, l2) => (r, s2, l1 ++ l2)
        end
    end.

Definition get : Py S := fun s => (inr s, s, []).
Definition put (s : S) : Py unit := fun _ => (inr tt, s, []).

(** The outcome of a call into foreign code. *)
Definition call {A} (r : PyExn + A) : Py A :=
  match r with
  | inr a => ret a
  | inl e => raise e
  end.

Definition logger_info (m : LogMsg) : Py unit := fun s => (inr tt, s, [(INFO, m)]).
Definition logger_warning (m : LogMsg) : Py unit := fun s => (inr tt, s, [(WARNING, m)]).
Definition logger_error (m : LogMsg) : Py unit := fun s => (inr tt, s, [(ERROR, m)]).

Definition result_of {A} (o : (PyExn + A) * S * list LogRecord) : PyExn + A := o.1.1.
Definition state_of {A} (o : (PyExn + A) * S * list LogRecord) : S := o.1.2.
Definition log_of {A} (o : (PyExn + A) * S * list LogRecord) : list LogRecord := o.2.
End Computations.

Arguments Py : clear implicits.

Notation "'let*' x ':=' c 'in' k" := (bind c (fun x => k))
  (at level 10, x pattern, c at level 100, k at level 200).
Notation "c ';;' k" := (bind c (fun _ => k))
  (at level 100, k at level 200, right associativity).

(** ** External collaborators *)

(** A loaded classifier. [m_predict = None] is [hasattr(model, 'predict')]
    being false, likewise for [m_predict_proba]. [m_predict m X] is the
    outcome of [model.predict(X)[0]]: it raises, or yields an object that is
    itself known through what [float(...)] later does on it.
    [m_predict_proba m X] is the outcome of
    [float(np.max(model.predict_proba(X)[0]))]. *)
Record Model : Type := {
  m_predict : option (list float -> PyExn + (PyExn + float));
  m_predict_proba : option (list float -> PyExn + float)
}.

(** What a path holds: nothing, or an artifact described by what
    [pickle.load] makes of it (an exception, [None] or a model) and by
    whether the [torch.load]/[load_state_dict]/[to]/[eval] chain accepts
    it. *)
Inductive File : Type :=
| NoFile
| Artifact (unpickled : PyExn + option Model) (state_dict : PyExn + unit).

Record Env : Type := {
  fs : string -> File;
  (** [load_iris], [RandomForestClassifier(...)], [fit]: the trained demo
      classifier, or the exception raised on the way (a failed import). *)
  demo_training : PyExn + Model;
  (** [import torch] *)
  import_torch : PyExn + unit
}.

Definition exists_ (f : File) : bool :=
  match f with
  | NoFile => false
  | Artifact _ _ => true
  end.

(** ** model_loader.py *)
Module model_loader.

(** The [__dict__] of a [ModelLoader] object. A field is [None] while the
    attribute has never been assigned on the object; [dict_model = Some
    None] is [self._model = None]. *)
Record ModelLoader : Type := {
  dict_model : option (option Model);
  dict_model_version : option string
}.

(** Class attributes [_model = None] and [_model_version = "v1.0.0"]. *)
Definition cls_model : option Model := None.
Definition cls_model_version : string := "v1.0.0".

(** Attribute lookup [self._model], [self._model_version]: the object's
    own entry, else the class attribute. *)
Definition _model (self : ModelLoader) : option Model :=
  default cls_model (dict_model self).
Definition _model_version (self : ModelLoader) : string :=
  default cls_model_version (dict_model_version self).

(** [self._model = o], [self._model_version = v] *)
Definition set_model (o : option Model) : Py ModelLoader unit :=
  let* self := get in
  put {| dict_model := Some o; dict_model_version := dict_model_version self |}.
Definition set_version (v : string) : Py ModelLoader unit :=
  let* self := get in
  put {| dict_model := dict_model self; dict_model_version := Some v |}.

(** [super().__new__(cls)] *)
Definition fresh : ModelLoader :=
  {| dict_model := None; dict_model_version := None |}.

(** The process: the class attribute [ModelLoader._instance] and the
    objects allocated so far, addressed by position. *)
Record World : Type := {
  _instance : option nat;
  heap : list ModelLoader
}.

Definition initial_world : World := {| _instance := None; heap := [] |}.

Definition __new__ : Py World nat :=
  let* w := get in
  match _instance w with
  | None =>
      let r := length (heap w) in
      put {| _instance := Some r; heap := heap w ++ [fresh] |} ;;
      ret r
  | Some r => ret r
  end.

Definition load_sklearn_model (env : Env) (model_path : string) : Py ModelLoader bool :=
  try_except
    (if negb (exists_ (fs env model_path)) then
       logger_error (Model_file_not_found model_path) ;;
       ret false
     else
       let* o := call (match fs env model_path with
                       | Artifact u _ => u
                       | NoFile => inl (OtherException "FileNotFoundError")
                       end) in
       set_model o ;;
       logger_info (Successfully_loaded_sklearn model_path) ;;
       ret true)
    (fun e =>
       logger_error (Failed_to_load_sklearn (str e)) ;;
       ret false).

(** [model_class] is the outcome of calling the class: the new, not yet
    initialised module, or an exception. *)
Definition load_pytorch_model (env : Env) (model_path : string)
    (model_class : PyExn + Model) : Py ModelLoader bool :=
  try_except
    (call (import_torch env) ;;
     if negb (exists_ (fs env model_path)) then
       logger_error (Model_file_not_found model_path) ;;
       ret false
     else
       let* m := call model_class in
       set_model (Some m) ;;
       call (match fs env model_path with
             | Artifact _ sd => sd
             | NoFile => inl (OtherException "FileNotFoundError")
             end) ;;
       logger_info (Successfully_loaded_pytorch model_path) ;;
       ret true)
    (fun e =>
       logger_error (Failed_to_load_pytorch (str e)) ;;
       ret false).

Definition create_demo_model (env : Env) : Py ModelLoader bool :=
  try_except
    (let* model := call (demo_training env) in
     set_model (Some model) ;;
     set_version "demo" ;;
     logger_info Created_demo_model ;;
     ret true)
    (fun e =>
       logger_error (Failed_to_create_demo (str e)) ;;
       ret false).

(** The dict returned by [predict]. *)
Record Prediction : Type := {
  prediction : float;
  probability : option float;
  model_version : string
}.

Definition predict (features : list float) : Py ModelLoader (option Prediction) :=
  try_except
    (let* self := get in
     match _model self with
     | None =>
         logger_error No_model_loaded ;;
         ret None
     | Some model =>
         match m_predict model with
         | Some model_predict =>
             let* prediction := call (model_predict features) in
             let* probability :=
               match m_predict_proba model with
               | Some model_predict_proba =>
                   let* p := call (model_predict_proba features) in
                   ret (Some p)
               | None => ret None
               end in
             let* value := call prediction in
             ret (Some {| prediction := value;
                          probability := probability;
                          model_version := _model_version self |})
         | None =>
             logger_error Model_has_no_predict ;;
             ret None
         end
     end)
    (fun e =>
       logger_error (Prediction_failed_with (str e)) ;;
       ret None).

Definition is_loaded (self : ModelLoader) : bool :=
  match _model self with
  | Some _ => true
  | None => false
  end.

Definition get_model_version (self : ModelLoader) : string :=
  _model_version self.

Definition set_model_version (version : string) : Py ModelLoader unit :=
  set_version version ;;
  logger_info (Model_version_set version).

End model_loader.

(** ** schemas.py *)
Module schemas.

Module PredictionRequest.
Record t : Type := {
  features : list float;
  model_version : option string
}.
End PredictionRequest.

(** The [@validator('features')] of [PredictionRequest]. *)
Definition validate_features (v : list float) : PyExn + list float :=
  match v with
  | [] => inl (ValueError "Features list cannot be empty")
  | _ :: _ =>
      if negb (length v =? 4)%nat then
        inl (ValueError "Expected exactly 4 features")
      else
        inr v
  end.

Module PredictionResponse.
Record t : Type := {
  prediction : float;
  probability : option float;
  model_version : string;
  input_features : list float
}.
End PredictionResponse.

Module HealthCheckResponse.
Record t : Type := {
  status : string;
  model_loaded : bool;
  model_version : option string
}.
End HealthCheckResponse.

Module ErrorResponse.
Record t : Type := {
  detail : string;
  error_code : string
}.
End ErrorResponse.

End schemas.

(** ** The web framework

    What FastAPI and Starlette contribute to a request: header tables,
    JSON responses, parsing of the request body against the schema, and the
    dispatch of raised exceptions to handlers. *)

Definition lower_ascii (c : Ascii.ascii) : Ascii.ascii :=
  let n := Ascii.nat_of_ascii c in
  if (65 <=? n)%nat && (n <=? 90)%nat then Ascii.ascii_of_nat (n + 32) else c.

Fixpoint lower (s : string) : string :=
  match s with
  | EmptyString => EmptyString
  | String c r => String (lower_ascii c) (lower r)
  end.

Section Headers.
Context {V : Type}.

(** Header tables keep their names in lower case and are searched with
    the lower-cased key; the first entry wins. *)
Fixpoint find_header (key : string) (hs : list (string * V)) : option V :=
  match hs with
  | [] => None
  | (k, v) :: rest => if String.eqb k key then Some v else find_header key rest
  end.

(** [headers.get(key, default)] *)
Definition headers_get (key : string) (hs : list (string * V)) : option V :=
  find_header (lower key) hs.

Definition has_key (key : string) (hs : list (string * V)) : bool :=
  existsb (fun kv => String.eqb kv.1 key) hs.

(** [headers[key] = value]: the first entry of that name is overwritten and
    later ones dropped; without one, the entry is appended. *)
Fixpoint overwrite (key : string) (value : V) (hs : list (string * V)) : list (string * V) :=
  match hs with
  | [] => []
  | (k, v) :: rest =>
      if String.eqb k key then
        (k, value) :: List.filter (fun kv => negb (String.eqb kv.1 key)) rest
      else
        (k, v) :: overwrite key value rest
  end.

Definition headers_set (key : string) (value : V) (hs : list (string * V)) : list (string * V) :=
  if has_key (lower key) hs then overwrite (lower key) value hs
  else hs ++ [(lower key, value)].
End Headers.

(** A response header is text, or the [str(...)] of a duration, kept as its
    number of microseconds. *)
Inductive HeaderValue : Type :=
| Text (s : string)
| Seconds (microseconds : Z).

(** *** Numbers in JSON

    JSON has no infinity and no NaN. The framework's [JSONResponse] refuses
    to render a body that holds one ([ValueError]). A route's return value
    goes through the serialiser of its response model first, and there the
    framework releases differ: one kind hands the number to [JSONResponse]
    as it is, which then refuses it, the other writes [null] in its
    place. *)
Inductive Rendering : Type :=
| Refused
| Written_as_null.

Definition out_of_range : PyExn :=
  ValueError "Out of range float values are not JSON compliant".

(** The numbers of a list are all finite. *)
Definition all_finite (numbers : list float) : bool :=
  forallb PrimFloat.is_finite numbers.

(** A number as JSON writes it when [null] stands for what it cannot
    write. *)
Definition json_number (x : float) : option float :=
  if PrimFloat.is_finite x then Some x else None.

(** The object sent for a [PredictionResponse]; [None] is [null]. *)
Record PredictionBody : Type := {
  body_prediction : option float;
  body_probability : option float;
  body_model_version : string;
  body_input_features : list (option float)
}.

(** Every number a [PredictionResponse] holds. *)
Definition numbers_of (p : schemas.PredictionResponse.t) : list float :=
  schemas.PredictionResponse.prediction p
    :: match schemas.PredictionResponse.probability p with
       | Some x => [x]
       | None => []
       end
    ++ schemas.PredictionResponse.input_features p.

(** The numbers of the result the registry's [predict] returned. *)
Definition result_numbers (result : model_loader.Prediction) : list float :=
  model_loader.prediction result
    :: match model_loader.probability result with
       | Some x => [x]
       | None => []
       end.

(** Serialising the value a route returned against [response_model]. *)
Definition serialize_response (fw : Rendering) (p : schemas.PredictionResponse.t)
    : PyExn + PredictionBody :=
  let body :=
    {| body_prediction := json_number (schemas.PredictionResponse.prediction p);
       body_probability :=
         match schemas.PredictionResponse.probability p with
         | Some x => json_number x
         | None => None
         end;
       body_model_version := schemas.PredictionResponse.model_version p;
       body_input_features :=
         map json_number (schemas.PredictionResponse.input_features p) |} in
  match fw with
  | Written_as_null => inr body
  | Refused => if all_finite (numbers_of p) then inr body else inl out_of_range
  end.

(** The JSON documents the service sends. Of a report of validation
    failures only the message of each failed check is kept, not the
    report's wording around it nor the input it repeats. *)
Inductive Content : Type :=
| Health (h : schemas.HealthCheckResponse.t)
| Predicted (b : PredictionBody)
| Descriptor (name version : string) (endpoints : list (string * string)) (docs : string)
| Error (e : schemas.ErrorResponse.t)
| Detail (detail : string)
| Validation_errors (detail : list string)
| Framework_page.

Record Response : Type := {
  status_code : Z;
  headers : list (string * HeaderValue);
  content : Content
}.

(** [JSONResponse(status_code=..., content=...)] *)
Definition JSONResponse (status_code : Z) (content : Content) : Response :=
  {| status_code := status_code;
     headers := [("content-type", Text "application/json")];
     content := content |}.

(** The status a client sees, if the stack produced a response. *)
Definition answered (r : PyExn + Response) : option Z :=
  match r with
  | inr response => Some (status_code response)
  | inl _ => None
  end.

Definition with_header (key : string) (value : HeaderValue) (r : Response) : Response :=
  {| status_code := status_code r;
     headers := headers_set key value (headers r);
     content := content r |}.

(** The decoded JSON body of a request as far as [PredictionRequest] reads
    it: each field is missing ([None]) or present. *)
Record Json : Type := {
  json_features : option (list float);
  json_model_version : option (option string)
}.

(** A request as the server hands it over: header names arrive in lower
    case, [client] is the peer's host when it is known. *)
Record Request : Type := {
  method : string;
  path : string;
  request_headers : list (string * string);
  client : option string;
  json : Json
}.

(** Building a [PredictionRequest] from the body: a missing required field
    and a [ValueError] raised by the validator are both reported as
    validation errors of the request. The report of a rejected field
    repeats the field's value; the report of a missing field repeats the
    body, which holds no number. *)
Definition parse_body (body : Json) : PyExn + schemas.PredictionRequest.t :=
  match json_features body with
  | None => inl (RequestValidationError ["Field required"] [])
  | Some v =>
      match schemas.validate_features v with
      | inl e => inl (RequestValidationError [str e] v)
      | inr v' =>
          inr {| schemas.PredictionRequest.features := v';
                 schemas.PredictionRequest.model_version :=
                   default (Some "latest") (json_model_version body) |}
      end
  end.

(** ** main.py

    The state of every computation is the object bound to the module
    variable [model_loader]. *)
Module main.

Import schemas.

Definition lifespan (env : Env) (MODEL_PATH : option string) : Py model_loader.ModelLoader unit :=
  logger_info Starting_api ;;
  let use_demo :=
    logger_info No_model_path_using_demo ;;
    let* _ := model_loader.create_demo_model env in
    ret tt in
  match MODEL_PATH with
  | None => use_demo
  | Some model_path =>
      if String.eqb model_path "" then use_demo
      else
        logger_info (Loading_model_from_path model_path) ;;
        let* loaded := model_loader.load_sklearn_model env model_path in
        if negb loaded then
          logger_warning Failed_to_load_using_demo ;;
          let* _ := model_loader.create_demo_model env in
          ret tt
        else ret tt
  end.

(** The two readings of [datetime.utcnow()] that one request makes, in
    microseconds since the epoch. *)
Record Clock : Type := {
  first_reading : Z;
  second_reading : Z
}.

(** The local variables [request_id] and [process_time] of
    [log_requests]. *)
Definition request_id (request : Request) : string :=
  default "unknown" (headers_get "X-Request-ID" (request_headers request)).

Definition process_time (clock : Clock) : Z :=
  (second_reading clock - first_reading clock)%Z.

Section Middleware.
Context {S : Type}.

Definition log_requests (clock : Clock) (request : Request)
    (call_next : Request -> Py S Response) : Py S Response :=
  logger_info (Incoming (request_id request) (method request) (path request)
                 (default "unknown" (client request))) ;;
  try_except
    (let* response := call_next request in
     logger_info (Outgoing (request_id request) (status_code response)
                    (process_time clock)) ;;
     let response := with_header "X-Process-Time" (Seconds (process_time clock)) response in
     let response := with_header "X-Request-ID" (Text (request_id request)) response in
     ret response)
    (fun e =>
       logger_error (Error_processing (request_id request) (str e) (process_time clock)) ;;
       raise e).

Definition value_error_handler (exc : PyExn) : Py S Response :=
  logger_error (Validation_error (str exc)) ;;
  ret (JSONResponse 400
         (Error {| ErrorResponse.detail := str exc;
                   ErrorResponse.error_code := "VALIDATION_ERROR" |})).

Definition general_exception_handler (exc : PyExn) : Py S Response :=
  logger_error (Unexpected_error (str exc)) ;;
  ret (JSONResponse 500
         (Error {| ErrorResponse.detail := "Internal server error. Check logs for details.";
                   ErrorResponse.error_code := "INTERNAL_ERROR" |})).

(** The framework's handler for [RequestValidationError]: 422 with the
    messages and the rejected input. The body is rendered when the
    response is built, and that raises when the input holds a number that
    is not finite. *)
Definition request_validation_exception_handler
    (errors : list string) (input : list float) : Py S Response :=
  if all_finite input then ret (JSONResponse 422 (Validation_errors errors))
  else raise out_of_range.

(** The handler table the application ends up with: the framework's own
    entries for [HTTPException] and [RequestValidationError], and the
    registered [ValueError] handler. The lookup follows the exception's
    class, so a request validation error is answered by its own entry.
    What a handler raises is not looked up again by the same pass, and an
    exception without an entry goes on. *)
Definition handling_exceptions (inner : Py S Response) : Py S Response :=
  try_except inner
    (fun e =>
       match e with
       | HTTPException code detail => ret (JSONResponse code (Detail detail))
       | RequestValidationError errors input =>
           request_validation_exception_handler errors input
       | ValueError _ => value_error_handler e
       | OtherException _ => raise e
       end).

(** The table is consulted twice on the way out: around the route, and in
    the exception middleware around the router. An exception raised by a
    handler of the first pass meets the second. *)
Definition exception_middleware (inner : Py S Response) : Py S Response :=
  handling_exceptions (handling_exceptions inner).

(** The outermost layer, which holds the handler registered for
    [Exception]. *)
Definition server_error_middleware (inner : Py S Response) : Py S Response :=
  try_except inner general_exception_handler.
End Middleware.

Definition health_check : Py model_loader.ModelLoader HealthCheckResponse.t :=
  logger_info Health_check_requested ;;
  let* loader := get in
  ret {| HealthCheckResponse.status :=
           if model_loader.is_loaded loader then "healthy" else "degraded";
         HealthCheckResponse.model_loaded := model_loader.is_loaded loader;
         HealthCheckResponse.model_version :=
           if model_loader.is_loaded loader
           then Some (model_loader.get_model_version loader)
           else None |}.

Definition predict (request : PredictionRequest.t)
    : Py model_loader.ModelLoader PredictionResponse.t :=
  let* loader := get in
  if negb (model_loader.is_loaded loader) then
    logger_error Requested_but_not_loaded ;;
    raise (HTTPException 503 "Model is not loaded. Please check health endpoint.")
  else
    logger_info (Prediction_requested (PredictionRequest.features request)) ;;
    let* result := model_loader.predict (PredictionRequest.features request) in
    match result with
    | None =>
        logger_error Prediction_failed ;;
        raise (HTTPException 500 "Error during prediction. Check logs for details.")
    | Some result =>
        let response :=
          {| PredictionResponse.prediction := model_loader.prediction result;
             PredictionResponse.probability := model_loader.probability result;
             PredictionResponse.model_version := model_loader.model_version result;
             PredictionResponse.input_features := PredictionRequest.features request |} in
        logger_info (Prediction_successful (PredictionResponse.prediction response)
                       (PredictionResponse.probability response)) ;;
        ret response
    end.

Definition root : Content :=
  Descriptor "ML Inference API" "1.0.0"
    [("health", "/health"); ("predict", "/predict");
     ("docs", "/docs"); ("openapi", "/openapi.json")]
    "See /docs for interactive API documentation".

(** The route table: the three decorated functions, the framework's
    documentation pages, and the router's 404 and 405. A route's return
    value is serialised and rendered inside the route. *)
Definition router_on (fw : Rendering) (request : Request)
    : Py model_loader.ModelLoader Response :=
  let same s t := String.eqb s t in
  if same (path request) "/health" then
    if same (method request) "GET" then
      let* h := health_check in
      ret (JSONResponse 200 (Health h))
    else raise (HTTPException 405 "Method Not Allowed")
  else if same (path request) "/predict" then
    if same (method request) "POST" then
      let* parsed := call (parse_body (json request)) in
      let* p := predict parsed in
      let* body := call (serialize_response fw p) in
      ret (JSONResponse 200 (Predicted body))
    else raise (HTTPException 405 "Method Not Allowed")
  else if same (path request) "/" then
    if same (method request) "GET" then ret (JSONResponse 200 root)
    else raise (HTTPException 405 "Method Not Allowed")
  else if same (path request) "/docs" || same (path request) "/redoc"
          || same (path request) "/openapi.json" then
    if same (method request) "GET" || same (method request) "HEAD"
    then ret (JSONResponse 200 Framework_page)
    else raise (HTTPException 405 "Method Not Allowed")
  else raise (HTTPException 404 "Not Found").

(** One request through the whole stack, outermost layer first. The CORS
    layer, which only adds [access-control-*] headers, is left out. *)
Definition app_on (fw : Rendering) (clock : Clock) (request : Request)
    : Py model_loader.ModelLoader Response :=
  server_error_middleware
    (log_requests clock request
       (fun request => exception_middleware (router_on fw request))).

(** The stack on a framework of the first kind. The two kinds differ only
    in the answer to a prediction whose response holds a number that is not
    finite. *)
Definition router : Request -> Py model_loader.ModelLoader Response :=
  router_on Refused.

Definition app : Clock -> Request -> Py model_loader.ModelLoader Response :=
  app_on Refused.

End main.

(** What the route table can do with a request: answer, or raise one of
    the exceptions the handler table has an entry for. The registry object
    is never assigned. *)
Inductive routed (self : model_loader.ModelLoader)
  : (PyExn + Response) * model_loader.ModelLoader * list LogRecord -> Prop :=
| routed_response resp l : routed self (inr resp, self, l)
| routed_http code detail l : routed self (inl (HTTPException code detail), self, l)
| routed_invalid errors input l :
    routed self (inl (RequestValidationError errors input), self, l)
| routed_value_error message l : routed self (inl (ValueError message), self, l).

(** ** Programs over the class

    What client code can do with [ModelLoader] through the class itself:
    construct it and call its methods on a reference it holds. *)
Module process.

Import model_loader.

(** [obj.method(...)] for the object that reference [r] points to. A
    reference always comes from a construction, so it points into the
    heap; for any other number nothing happens. *)
Definition on_object {A} (r : nat) (method : Py ModelLoader A) : Py World (option A) :=
  fun w =>
    match heap w !! r with
    | Some self =>
        match method self with
        | (res, self', l) =>
            (match res with inl e => inl e | inr a => inr (Some a) end,
             {| _instance := _instance w; heap := <[r := self']> (heap w) |},
             l)
        end
    | None => (inr None, w, [])
    end.

Inductive Op : Type :=
| Construct
| Load_sklearn (r : nat) (model_path : string)
| Load_pytorch (r : nat) (model_path : string) (model_class : PyExn + Model)
| Create_demo (r : nat)
| Set_version (r : nat) (version : string)
| Predict (r : nat) (features : list float).

(** One operation; a construction returns the reference it produced. *)
Definition step (env : Env) (op : Op) : Py World (option nat) :=
  match op with
  | Construct => let* r := __new__ in ret (Some r)
  | Load_sklearn r model_path =>
      on_object r (load_sklearn_model env model_path) ;; ret None
  | Load_pytorch r model_path model_class =>
      on_object r (load_pytorch_model env model_path model_class) ;; ret None
  | Create_demo r => on_object r (create_demo_model env) ;; ret None
  | Set_version r version => on_object r (set_model_version version) ;; ret None
  | Predict r features => on_object r (predict features) ;; ret None
  end.

(** A sequence of operations: the final process state and the references
    the constructions returned, in order. *)
Fixpoint run (env : Env) (ops : list Op) (w : World) : World * list nat :=
  match ops with
  | [] => (w, [])
  | op :: rest =>
      match step env op w with
      | (res, w', _) =>
          match run env rest w' with
          | (w'', refs) =>
              (w'', match res with
                    | inr (Some r) => r :: refs
                    | _ => refs
                    end)
          end
      end
  end.

(** The number of registry objects that hold a model. *)
Definition live_handles (w : World) : nat :=
  length (List.filter is_loaded (heap w)).




End process.

(** ** conftest.py and test_api.py *)
Module tests.

(** [ModelLoader._instance = None], the tests' way of resetting the
    singleton. It is an assignment to the class attribute from outside the
    class. *)
Definition reset_singleton : Py model_loader.World unit :=
  let* w := get in
  put {| model_loader._instance := None; model_loader.heap := model_loader.heap w |}.

Definition valid_features : list float := [5.1%float; 3.5%float; 1.4%float; 0.2%float].

(** [TestModelLoader.test_model_not_loaded_prediction], up to its
    assertion: the value of [result]. *)
Definition test_model_not_loaded_prediction
    : Py model_loader.World (option (option model_loader.Prediction)) :=
  reset_singleton ;;
  let* loader := model_loader.__new__ in
  process.on_object loader
    (model_loader.predict [1.0%float; 2.0%float; 3.0%float; 4.0%float]).

End tests.

(** ** Reference readings and sample collaborators *)
Module spec.

(** The registry's version as the specification words it: the tag of the
    current handle when a model is ready, absent otherwise. *)
Definition version (self : model_loader.ModelLoader) : option string :=
  if model_loader.is_loaded self
  then Some (model_loader._model_version self)
  else None.

(** Some call made by the registry's [predict] on the model raises: the
    [predict] call, the probability estimate, or the conversion of the
    predicted label to a float. A model without a [predict] attribute is
    never called. *)
Definition invocation_raises (model : Model) (features : list float) : Prop :=
  exists f, m_predict model = Some f /\
    ((exists e, f features = inl e) \/
     (exists e, f features = inr (inl e)) \/
     (exists g e, m_predict_proba model = Some g /\ g features = inl e)).

(** The [str(...)] of a duration reads back as a number that is not
    negative. *)
Definition non_negative_number (v : HeaderValue) : bool :=
  match v with
  | Seconds microseconds => (0 <=? microseconds)%Z
  | Text _ => false
  end.

End spec.

Module samples.

(** A classifier with [predict] only, one with [predict_proba] as well,
    and a PyTorch module, which has neither. *)
Definition point_model : Model :=
  {| m_predict := Some (fun _ => inr (inr 0%float));
     m_predict_proba := None |}.
Definition forest : Model :=
  {| m_predict := Some (fun _ => inr (inr 0%float));
     m_predict_proba := Some (fun _ => inr 1%float) |}.
Definition torch_module : Model :=
  {| m_predict := None; m_predict_proba := None |}.

Definition holding (m : Model) (version : string) : model_loader.ModelLoader :=
  {| model_loader.dict_model := Some (Some m);
     model_loader.dict_model_version := Some version |}.

(** A machine with scikit-learn and a single path, holding bytes that do
    not unpickle. *)
Definition env : Env :=
  {| fs := fun p => if String.eqb p "model.pkl"
                    then Artifact (inl (OtherException "UnpicklingError")) (inr tt)
                    else NoFile;
     demo_training := inr forest;
     import_torch := inl (OtherException "No module named 'torch'") |}.

Definition post_predict (features : list float) : Request :=
  {| method := "POST"; path := "/predict"; request_headers := [];
     client := Some "testclient";
     json := {| json_features := Some features; json_model_version := None |} |}.

Definition get_health (request_headers : list (string * string)) : Request :=
  {| method := "GET"; path := "/health"; request_headers := request_headers;
     client := Some "testclient";
     json := {| json_features := None; json_model_version := None |} |}.

Definition noon : main.Clock :=
  {| main.first_reading := 1000000; main.second_reading := 1000250 |}.

(** The wall clock was set back between the two readings. *)
Definition stepped_back : main.Clock :=
  {| main.first_reading := 1000000; main.second_reading := 999999 |}.

End samples.

(** ** The layers around an arbitrary route

    [main.app] is this stack around [main.router]; written over any route
    it shows what each registered handler does with what a route raises. *)
Module stack.

Definition serve {S : Type} (clock : main.Clock) (request : Request)
    (route : Request -> Py S Response) : Py S Response :=
  main.server_error_middleware
    (main.log_requests clock request
       (fun request => main.exception_middleware (route request))).

(** Whether a response model holding these numbers can be sent. *)
Definition renders (fw : Rendering) (numbers : list float) : bool :=
  match fw with
  | Written_as_null => true
  | Refused => all_finite numbers
  end.

(** A record of level [ERROR] was emitted. *)
Definition logged_error (l : list LogRecord) : bool :=
  existsb (fun record => match record.1 with ERROR => true | _ => false end) l.

(** A POST to [/predict] carrying [features] and a [model_version] entry. *)
Definition posting (request_headers : list (string * string)) (client : option string)
    (features : list float) (version : option (option string)) : Request :=
  {| method := "POST"; path := "/predict"; request_headers := request_headers;
     client := client;
     json := {| json_features := Some features; json_model_version := version |} |}.

End stack.

(** ** conftest.py: the session and registry fixtures *)
Module conftest.

Import model_loader.

(** [setup_session], up to its [yield]. *)
Definition setup_session : Py World unit := tests.reset_singleton.

(** [loader.is_loaded()] as a method call. *)
Definition is_loaded_call : Py ModelLoader bool :=
  let* self := get in ret (is_loaded self).

(** The [model_loader] fixture. *)
Definition model_loader_fixture (env : Env) : Py World nat :=
  let* loader := __new__ in
  let* loaded := process.on_object loader is_loaded_call in
  match loaded with
  | Some true => ret loader
  | _ =>
      process.on_object loader (create_demo_model env) ;;
      ret loader
  end.

End conftest.

Module more_samples.

(** A machine whose only path holds a pickled classifier. *)
Definition env_with_artifact : Env :=
  {| fs := fun p => if String.eqb p "model.pkl"
                    then Artifact (inr (Some samples.point_model)) (inr tt)
                    else NoFile;
     demo_training := inr samples.forest;
     import_torch := inr tt |}.

(** A route that fails with an exception no handler but the last one
    knows, and one that raises a [ValueError]. *)
Definition crashing_route (request : Request) : Py unit Response :=
  raise (OtherException "boom").
Definition complaining_route (request : Request) : Py unit Response :=
  raise (ValueError "bad value").

Definition with_nan : list float := [nan; 1%float; 1%float; 1%float].

(** A classifier whose [predict] raises. *)
Definition broken_model : Model :=
  {| m_predict := Some (fun _ => inl (ValueError "X has 4 features, expected 3"));
     m_predict_proba := None |}.

End more_samples.

(** * Properties *)

(** ** The scenarios of the test suite and of startup *)

Example test_predict_valid_input :
  main.app samples.noon (samples.post_predict tests.valid_features)
    (samples.holding samples.forest "demo") =
  (inr {| status_code := 200;
          headers := [("content-type", Text "application/json");
                      ("x-process-time", Seconds 250);
                      ("x-request-id", Text "unknown")];
          content :=
            Predicted
              {| body_prediction := Some 0%float;
                 body_probability := Some 1%float;
                 body_model_version := "demo";
                 body_input_features := map Some tests.valid_features |} |},
   samples.holding samples.forest "demo",
   [(INFO, Incoming "unknown" "POST" "/predict" "testclient");
    (INFO, Prediction_requested tests.valid_features);
    (INFO, Prediction_successful 0%float (Some 1%float));
    (INFO, Outgoing "unknown" 200 250)]).
Proof. reflexivity. Qed.

Example point_prediction_has_no_probability :
  result_of (model_loader.predict tests.valid_features
               (samples.holding samples.point_model "v2.0.0")) =
  inr (Some {| model_loader.prediction := 0%float;
               model_loader.probability := None;
               model_loader.model_version := "v2.0.0" |}).
Proof. reflexivity. Qed.

Example test_non_existent_endpoint :
  answered
    (result_of (main.app samples.noon
                 {| method := "GET"; path := "/nonexistent"; request_headers := [];
                    client := None;
                    json := {| json_features := None; json_model_version := None |} |}
                 model_loader.fresh)) = Some 404%Z.
Proof. reflexivity. Qed.

Example test_predict_missing_features :
  answered
    (result_of (main.app samples.noon
                 {| method := "POST"; path := "/predict"; request_headers := [];
                    client := None;
                    json := {| json_features := None;
                               json_model_version := Some (Some "latest") |} |}
                 (samples.holding samples.forest "demo"))) = Some 422%Z.
Proof. reflexivity. Qed.

(** Startup with [MODEL_PATH] pointing at bytes that do not unpickle falls
    back to the demo classifier and its tag. *)
Example startup_falls_back_to_demo :
  main.lifespan samples.env (Some "model.pkl") model_loader.fresh =
  (inr tt, samples.holding samples.forest "demo",
   [(INFO, Starting_api);
    (INFO, Loading_model_from_path "model.pkl");
    (ERROR, Failed_to_load_sklearn "UnpicklingError");
    (WARNING, Failed_to_load_using_demo);
    (INFO, Created_demo_model)]).
Proof. reflexivity. Qed.


(** ** The registry *)

Section Registry.
Import model_loader.

(** A run of [predict] that ended in the failure value because a call on
    [model] raised; [which] picks the call. *)
Ltac failed_because model f which :=
  exists None; repeat split; try discriminate;
  intros _; right; exists model; split; [done|];
  right; exists f; split; [congruence|]; which.

(** A run in which every call returned: none of the failure causes is
    there. *)
Ltac nothing_raised :=
  intros [?|(? & ? & [?|(? & ? & [(? & ?)|[(? & ?)|(? & ? & ? & ?)]])])];
  congruence.

(** The registry's [predict] never raises and never assigns: whatever
    happens inside is turned into a return value. *)
Lemma predict_returns (features : list float) (self : ModelLoader) :
  exists r l, predict features self = (inr r, self, l).
Proof.
  unfold predict, try_except, bind, get.
  destruct (_model self) as [model|]; cbn; [|eauto].
  destruct (m_predict model) as [f|]; cbn; [|eauto].
  destruct (f features) as [e|label]; cbn; [eauto|].
  destruct (m_predict_proba model) as [g|]; cbn.
  - destruct (g features) as [e|p]; cbn; [eauto|].
    destruct label as [e|value]; cbn; eauto.
  - destruct label as [e|value]; cbn; eauto.
Qed.

(** C10: [load_sklearn_model] returns a boolean and leaves the version tag
    as it was, whether it succeeds or not, so a registry that never had a
    tag assigned still answers "v1.0.0" afterwards; it fails exactly on a
    missing path or an artifact that does not deserialize, and then the
    whole object, the model reference included, is unchanged. *)
Theorem load_sklearn_model_keeps_version
    (env : Env) (model_path : string) (self : ModelLoader) :
  exists ok : bool,
    result_of (load_sklearn_model env model_path self) = inr ok /\
    get_model_version (state_of (load_sklearn_model env model_path self))
      = get_model_version self /\
    (ok = false <->
       fs env model_path = NoFile \/
       exists e sd, fs env model_path = Artifact (inl e) sd) /\
    (ok = false ->
       state_of (load_sklearn_model env model_path self) = self /\
       _model (state_of (load_sklearn_model env model_path self)) = _model self) /\
    (dict_model_version self = None ->
       get_model_version (state_of (load_sklearn_model env model_path self)) = "v1.0.0").
Proof.
  unfold load_sklearn_model, try_except, bind, get_model_version, _model_version.
  destruct (fs env model_path) as [|[e|o] sd] eqn:Hfile; cbn.
  - exists false. repeat split; auto. intros ->. reflexivity.
  - exists false. repeat split; eauto. intros ->. reflexivity.
  - exists true. repeat split; try discriminate.
    + intros [H|(e & sd' & H)]; discriminate.
    + intros ->. reflexivity.
Qed.

(** C8 fails on a registry that has never loaded anything: it is not
    ready, the specification's reading gives no version, and
    [get_model_version] answers the class default. *)
Lemma get_model_version_unloaded_counterexample :
  is_loaded fresh = false /\
  spec.version fresh = None /\
  get_model_version fresh = "v1.0.0" /\
  Some (get_model_version fresh) <> spec.version fresh.
Proof. repeat split; discriminate. Qed.

(** C8, amended: [get_model_version] returns the stored tag whether or not
    a model is ready. With a model ready this is the specification's
    version; the answer does not depend on the model reference at all, and
    before any tag was assigned it is "v1.0.0". *)
Theorem get_model_version_ignores_readiness (self : ModelLoader) :
  (is_loaded self = true -> Some (get_model_version self) = spec.version self) /\
  (forall o : option (option Model),
     get_model_version {| dict_model := o; dict_model_version := dict_model_version self |}
       = get_model_version self) /\
  (dict_model_version self = None -> get_model_version self = "v1.0.0").
Proof.
  repeat split.
  - unfold spec.version. intros ->. reflexivity.
  - unfold get_model_version, _model_version. intros ->. reflexivity.
Qed.

(** C5 fails for a loaded PyTorch module: a handle is active and nothing
    raises, because nothing is invoked, yet [predict] returns the failure
    value. *)
Lemma predict_fails_without_raise_counterexample :
  is_loaded (samples.holding samples.torch_module "v1.0.0") = true /\
  ~ spec.invocation_raises samples.torch_module tests.valid_features /\
  result_of (predict tests.valid_features (samples.holding samples.torch_module "v1.0.0"))
    = inr None.
Proof.
  repeat split.
  intros (f & Hf & _). discriminate.
Qed.

(** C5, amended: [predict] returns the failure value exactly when no model
    is held, or the held model has no [predict] attribute, or a call on it
    raises. When it succeeds the probability is present exactly when the
    model has [predict_proba], and [None] otherwise. *)
Theorem predict_fails_iff (features : list float) (self : ModelLoader) :
  exists r : option Prediction,
    result_of (predict features self) = inr r /\
    (r = None <->
       _model self = None \/
       exists model, _model self = Some model /\
         (m_predict model = None \/ spec.invocation_raises model features)) /\
    (forall p, r = Some p ->
       exists model, _model self = Some model /\
         (is_Some (probability p) <-> is_Some (m_predict_proba model)) /\
         model_version p = get_model_version self).
Proof.
  unfold predict, try_except, bind, get, spec.invocation_raises.
  destruct (_model self) as [model|] eqn:Hm; cbn.
  2:{ exists None. repeat split; auto; discriminate. }
  destruct (m_predict model) as [f|] eqn:Hf; cbn.
  2:{ exists None. repeat split; try discriminate.
      intros _. right. exists model. rewrite Hf. auto. }
  destruct (f features) as [e|label] eqn:Hcall; cbn.
  { failed_because model f ltac:(left; eauto). }
  destruct (m_predict_proba model) as [g|] eqn:Hg; cbn.
  - destruct (g features) as [e|p] eqn:Hproba; cbn.
    { failed_because model f ltac:(right; right; exists g, e; rewrite Hg; auto). }
    destruct label as [e|value]; cbn.
    { failed_because model f ltac:(right; left; rewrite Hcall; eauto). }
    eexists. split; [reflexivity|]. split.
    + split; [discriminate | nothing_raised].
    + intros p0 [= <-]. exists model. cbn. rewrite Hg. repeat split; eauto.
  - destruct label as [e|value]; cbn.
    { failed_because model f ltac:(right; left; rewrite Hcall; eauto). }
    eexists. split; [reflexivity|]. split.
    + split; [discriminate | nothing_raised].
    + intros p0 [= <-]. exists model. cbn. rewrite Hg.
      repeat split; intros [? H]; discriminate.
Qed.

End Registry.

(** ** Header tables *)

Section HeaderFacts.
Context {V : Type}.
Implicit Types (hs : list (string * V)) (key : string) (v : V).

Lemma find_header_overwrite key v hs :
  has_key key hs = true -> find_header key (overwrite key v hs) = Some v.
Proof.
  induction hs as [|[k w] rest IH]; cbn; [discriminate|].
  destruct (String.eqb k key) eqn:Hk; cbn.
  - rewrite Hk. reflexivity.
  - rewrite Hk. exact IH.
Qed.

Lemma find_header_append key v hs :
  has_key key hs = false -> find_header key (hs ++ [(key, v)]) = Some v.
Proof.
  induction hs as [|[k w] rest IH]; cbn.
  - rewrite String.eqb_refl. reflexivity.
  - destruct (String.eqb k key); cbn; [discriminate | exact IH].
Qed.

Lemma find_header_filter key other hs :
  key <> other ->
  find_header other (List.filter (fun kv => negb (String.eqb kv.1 key)) hs)
    = find_header other hs.
Proof.
  intros Hne. induction hs as [|[k w] rest IH]; [reflexivity|].
  cbn. destruct (String.eqb k key) eqn:Hk; cbn.
  - apply String.eqb_eq in Hk. subst k.
    destruct (String.eqb key other) eqn:Ho; [|exact IH].
    apply String.eqb_eq in Ho. contradiction.
  - rewrite IH. reflexivity.
Qed.

Lemma find_header_overwrite_other key other v hs :
  key <> other -> find_header other (overwrite key v hs) = find_header other hs.
Proof.
  intros Hne. induction hs as [|[k w] rest IH]; [reflexivity|]. cbn.
  destruct (String.eqb k key) eqn:Hk; cbn.
  - apply String.eqb_eq in Hk. subst k.
    destruct (String.eqb key other) eqn:Ho.
    + apply String.eqb_eq in Ho. contradiction.
    + apply find_header_filter, Hne.
  - rewrite IH. reflexivity.
Qed.

Lemma find_header_append_other key other v hs :
  key <> other -> find_header other (hs ++ [(key, v)]) = find_header other hs.
Proof.
  intros Hne. induction hs as [|[k w] rest IH]; cbn.
  - destruct (String.eqb key other) eqn:Ho; [|reflexivity].
    apply String.eqb_eq in Ho. contradiction.
  - rewrite IH. reflexivity.
Qed.

(** Reading back the entry just written. *)
Lemma headers_get_set key v hs : headers_get key (headers_set key v hs) = Some v.
Proof.
  unfold headers_get, headers_set.
  destruct (has_key (lower key) hs) eqn:Hk.
  - apply find_header_overwrite, Hk.
  - apply find_header_append, Hk.
Qed.

(** Writing one name leaves the others as they were. *)
Lemma headers_get_set_other key other v hs :
  lower key <> lower other ->
  headers_get other (headers_set key v hs) = headers_get other hs.
Proof.
  unfold headers_get, headers_set. intros Hne.
  destruct (has_key (lower key) hs).
  - apply find_header_overwrite_other, Hne.
  - apply find_header_append_other, Hne.
Qed.
End HeaderFacts.

(** ** The request pipeline *)

Section Pipeline.
Import schemas.

Lemma main_predict_outcome (request : PredictionRequest.t) (self : model_loader.ModelLoader) :
  (exists p l, main.predict request self = (inr p, self, l)) \/
  (exists code detail l, main.predict request self = (inl (HTTPException code detail), self, l)).
Proof.
  unfold main.predict, bind, get. cbn.
  destruct (model_loader.is_loaded self); cbn; [|eauto 6].
  destruct (predict_returns (PredictionRequest.features request) self) as (r & l & ->).
  destruct r as [result|]; cbn; eauto 6.
Qed.

Lemma router_routed (fw : Rendering) (request : Request) (self : model_loader.ModelLoader) :
  routed self (main.router_on fw request self).
Proof.
  unfold main.router_on.
  destruct (String.eqb (path request) "/health").
  { destruct (String.eqb (method request) "GET"); cbn; constructor. }
  destruct (String.eqb (path request) "/predict").
  { destruct (String.eqb (method request) "POST"); [|constructor].
    unfold bind at 1.
    destruct (parse_body (json request)) as [e|parsed] eqn:Hparse; cbn.
    - unfold parse_body in Hparse.
      destruct (json_features (json request)) as [v|]; [|simplify_eq; constructor].
      destruct (validate_features v); simplify_eq. constructor.
    - unfold bind at 1.
      destruct (main_predict_outcome parsed self) as [(p & l & ->)|(c & d & l & ->)];
        [|constructor].
      unfold bind, out_of_range.
      destruct (serialize_response fw p) as [e|body] eqn:Hbody; cbn; [|constructor].
      unfold serialize_response, out_of_range in Hbody.
      destruct fw; [|discriminate].
      destruct (all_finite (numbers_of p)); simplify_eq. constructor. }
  destruct (String.eqb (path request) "/").
  { destruct (String.eqb (method request) "GET"); cbn; constructor. }
  destruct (_ || _).
  { destruct (_ || _); cbn; constructor. }
  constructor.
Qed.

(** One pass of the handler table over a routed outcome answers, or raises
    a [ValueError]. *)
Lemma handled_once self o :
  routed self o ->
  (exists resp l, main.handling_exceptions (fun _ => o) self = (inr resp, self, l)) \/
  (exists message l,
     main.handling_exceptions (fun _ => o) self = (inl (ValueError message), self, l)).
Proof.
  intros [resp l|code detail l|errors input l|message l];
    unfold main.handling_exceptions, main.request_validation_exception_handler,
      out_of_range, try_except; cbn; eauto.
  destruct (all_finite input); cbn; eauto.
Qed.

(** Below the logging middleware every request ends in a response. *)
Lemma call_next_responds_on (fw : Rendering) (request : Request)
    (self : model_loader.ModelLoader) :
  exists resp l,
    main.exception_middleware (main.router_on fw request) self = (inr resp, self, l).
Proof.
  unfold main.exception_middleware.
  destruct (handled_once self _ (router_routed fw request self))
    as [(resp & l & H)|(message & l & H)];
    unfold main.handling_exceptions, try_except in *; cbn in *; rewrite H; cbn; eauto.
Qed.

Lemma call_next_responds (request : Request) (self : model_loader.ModelLoader) :
  exists resp l, main.exception_middleware (main.router request) self = (inr resp, self, l).
Proof. apply call_next_responds_on. Qed.

(** The logging middleware around a response: two log lines around the
    inner ones, two headers on top of the inner ones. *)
Lemma app_on_around_response fw clock request self resp self' l :
  main.exception_middleware (main.router_on fw request) self = (inr resp, self', l) ->
  main.app_on fw clock request self =
    (inr (with_header "X-Request-ID" (Text (main.request_id request))
            (with_header "X-Process-Time" (Seconds (main.process_time clock)) resp)),
     self',
     (INFO, Incoming (main.request_id request) (method request) (path request)
              (default "unknown" (client request)))
       :: l ++ [(INFO, Outgoing (main.request_id request) (status_code resp) (main.process_time clock))]).
Proof.
  intros Hinner.
  unfold main.app_on, main.server_error_middleware, main.log_requests, try_except, bind.
  cbn. rewrite Hinner. reflexivity.
Qed.

Lemma app_around_response clock request self resp self' l :
  main.exception_middleware (main.router request) self = (inr resp, self', l) ->
  main.app clock request self =
    (inr (with_header "X-Request-ID" (Text (main.request_id request))
            (with_header "X-Process-Time" (Seconds (main.process_time clock)) resp)),
     self',
     (INFO, Incoming (main.request_id request) (method request) (path request)
              (default "unknown" (client request)))
       :: l ++ [(INFO, Outgoing (main.request_id request) (status_code resp) (main.process_time clock))]).
Proof. apply app_on_around_response. Qed.

End Pipeline.

(** ** The endpoints *)

Section Endpoints.
Import schemas.

(** The part of the stack below the logging middleware, on a POST to
    [/predict] whose body carries a [features] field. *)
Lemma post_predict_unfold_on (fw : Rendering) (request : Request) (v : list float) self :
  method request = "POST" ->
  path request = "/predict" ->
  json_features (json request) = Some v ->
  main.exception_middleware (main.router_on fw request) self =
    main.exception_middleware
      (let* parsed := call (parse_body (json request)) in
       let* p := main.predict parsed in
       let* body := call (serialize_response fw p) in
       ret (JSONResponse 200 (Predicted body))) self.
Proof.
  intros Hm Hp _. unfold main.router_on. rewrite Hm, Hp. reflexivity.
Qed.

Lemma post_predict_unfold (request : Request) (v : list float) self :
  method request = "POST" ->
  path request = "/predict" ->
  json_features (json request) = Some v ->
  main.exception_middleware (main.router request) self =
    main.exception_middleware
      (let* parsed := call (parse_body (json request)) in
       let* p := main.predict parsed in
       let* body := call (serialize_response Refused p) in
       ret (JSONResponse 200 (Predicted body))) self.
Proof. apply post_predict_unfold_on. Qed.

Lemma validate_features_rejects (v : list float) :
  length v <> 4%nat ->
  exists message, validate_features v = inl (ValueError message).
Proof.
  intros Hlen. destruct v as [|x v]; cbn; [eauto|].
  destruct (Nat.eqb_spec (length v) 3) as [Heq|Hne]; cbn; [|eauto].
  cbn in Hlen. lia.
Qed.

Lemma validate_features_accepts (v : list float) :
  length v = 4%nat -> validate_features v = inr v.
Proof.
  intros Hlen. destruct v as [|x v]; [discriminate|].
  unfold validate_features. rewrite Hlen. reflexivity.
Qed.

(** Finite numbers are written as they are. *)
Lemma json_numbers_finite (numbers : list float) :
  all_finite numbers = true -> map json_number numbers = map Some numbers.
Proof.
  unfold all_finite, json_number.
  induction numbers as [|x rest IH]; cbn; [reflexivity|].
  intros [Hx Hrest]%andb_prop. rewrite Hx, (IH Hrest). reflexivity.
Qed.

(** The numbers of a response are those of the result and the features. *)
Lemma all_finite_numbers (p : PredictionResponse.t) :
  all_finite (numbers_of p) =
    all_finite (PredictionResponse.prediction p
                  :: match PredictionResponse.probability p with
                     | Some x => [x]
                     | None => []
                     end)
    && all_finite (PredictionResponse.input_features p).
Proof.
  unfold all_finite, numbers_of.
  destruct (PredictionResponse.probability p); cbn;
    rewrite ?andb_true_r, ?andb_assoc; reflexivity.
Qed.

(** What the stack below the logging middleware makes of a body whose
    features the validator rejects: the answer of the 422 handler when the
    input renders, and the answer of the [ValueError] handler to what
    rendering raises when it does not. *)
Lemma rejected_features_outcome fw request features message self :
  method request = "POST" ->
  path request = "/predict" ->
  json_features (json request) = Some features ->
  validate_features features = inl (ValueError message) ->
  main.exception_middleware (main.router_on fw request) self =
    if all_finite features
    then (inr (JSONResponse 422 (Validation_errors [message])), self, [])
    else (inr (JSONResponse 400
                 (Error {| ErrorResponse.detail := str out_of_range;
                           ErrorResponse.error_code := "VALIDATION_ERROR" |})),
          self, [(ERROR, Validation_error (str out_of_range))]).
Proof.
  intros Hm Hp Hf Hv.
  rewrite (post_predict_unfold_on fw request features self Hm Hp Hf).
  unfold main.exception_middleware, main.handling_exceptions,
    main.request_validation_exception_handler, try_except, bind, parse_body.
  rewrite Hf, Hv. cbn.
  destruct (all_finite features); reflexivity.
Qed.




(** C2: with no model held, a POST to [/predict] with four features is
    answered 503, not 500 and not 200. *)
Theorem unloaded_is_503
    (clock : main.Clock) (request : Request) (features : list float)
    (self : model_loader.ModelLoader) :
  method request = "POST" ->
  path request = "/predict" ->
  json_features (json request) = Some features ->
  length features = 4%nat ->
  model_loader.is_loaded self = false ->
  exists resp l,
    main.app clock request self = (inr resp, self, l) /\
    status_code resp = 503%Z /\
    status_code resp <> 500%Z /\
    status_code resp <> 200%Z /\
    content resp = Detail "Model is not loaded. Please check health endpoint.".
Proof.
  intros Hm Hp Hf Hlen Hloaded.
  eexists. eexists. split; [|split; [|split; [|split]]].
  - erewrite app_around_response; [reflexivity|].
    rewrite (post_predict_unfold request features self Hm Hp Hf).
    unfold main.exception_middleware, main.handling_exceptions, try_except, bind,
      parse_body, main.predict, get.
    rewrite Hf, (validate_features_accepts features Hlen). cbn.
    rewrite Hloaded. cbn. reflexivity.
  - reflexivity.
  - discriminate.
  - discriminate.
  - reflexivity.
Qed.

Lemma unloaded_is_503_witness :
  exists resp l,
    main.app samples.noon (samples.post_predict tests.valid_features) model_loader.fresh
      = (inr resp, model_loader.fresh, l) /\
    status_code resp = 503%Z /\
    status_code resp <> 500%Z /\
    status_code resp <> 200%Z /\
    content resp = Detail "Model is not loaded. Please check health endpoint.".
Proof.
  apply (unloaded_is_503 samples.noon (samples.post_predict tests.valid_features)
           tests.valid_features model_loader.fresh); reflexivity.
Defined.

(** C3 fails for a vector that holds NaN, with a model held and a
    successful prediction: a framework that writes [null] answers 200 with
    [null] in the place of the NaN, so the features sent back are not the
    ones submitted, and a framework that refuses answers 400. *)
Lemma echo_counterexample :
  length more_samples.with_nan = 4%nat /\
  (exists resp l body,
     main.app_on Written_as_null samples.noon (samples.post_predict more_samples.with_nan)
       (samples.holding samples.forest "demo")
       = (inr resp, samples.holding samples.forest "demo", l) /\
     status_code resp = 200%Z /\
     content resp = Predicted body /\
     body_input_features body = [None; Some 1%float; Some 1%float; Some 1%float] /\
     body_input_features body <> map Some more_samples.with_nan) /\
  (exists resp l,
     main.app_on Refused samples.noon (samples.post_predict more_samples.with_nan)
       (samples.holding samples.forest "demo")
       = (inr resp, samples.holding samples.forest "demo", l) /\
     status_code resp = 400%Z /\
     status_code resp <> 200%Z).
Proof.
  split; [reflexivity|]. split.
  - eexists. eexists. eexists. split; [vm_compute; reflexivity|].
    cbn. repeat split. discriminate.
  - eexists. eexists. split; [vm_compute; reflexivity|].
    cbn. split; [reflexivity | discriminate].
Qed.

(** C3, amended: with a model held and the registry's [predict] returning
    a result, a POST to [/predict] with four finite features is answered
    200 and the body carries the submitted features, each one as it was
    sent and in the order they were sent, together with the registry's
    result. This needs the predicted value and the probability to be
    finite too, unless the framework writes [null] for what is not. *)
Theorem predict_echoes_finite_features
    (fw : Rendering) (clock : main.Clock) (request : Request) (features : list float)
    (self : model_loader.ModelLoader) (result : model_loader.Prediction) :
  method request = "POST" ->
  path request = "/predict" ->
  json_features (json request) = Some features ->
  length features = 4%nat ->
  all_finite features = true ->
  model_loader.is_loaded self = true ->
  result_of (model_loader.predict features self) = inr (Some result) ->
  fw = Written_as_null \/ all_finite (result_numbers result) = true ->
  exists resp l,
    main.app_on fw clock request self = (inr resp, self, l) /\
    status_code resp = 200%Z /\
    content resp =
      Predicted
        {| body_prediction := json_number (model_loader.prediction result);
           body_probability :=
             match model_loader.probability result with
             | Some x => json_number x
             | None => None
             end;
           body_model_version := model_loader.model_version result;
           body_input_features := map Some features |}.
Proof.
  intros Hm Hp Hf Hlen Hfinite Hloaded Hresult Hfw.
  destruct (predict_returns features self) as (r & l & Hpredict).
  rewrite Hpredict in Hresult. cbn in Hresult. simplify_eq.
  assert (serialize_response fw
            {| PredictionResponse.prediction := model_loader.prediction result;
               PredictionResponse.probability := model_loader.probability result;
               PredictionResponse.model_version := model_loader.model_version result;
               PredictionResponse.input_features := features |}
          = inr {| body_prediction := json_number (model_loader.prediction result);
                   body_probability :=
                     match model_loader.probability result with
                     | Some x => json_number x
                     | None => None
                     end;
                   body_model_version := model_loader.model_version result;
                   body_input_features := map Some features |}) as Hbody.
  { unfold serialize_response. cbn [PredictionResponse.prediction
      PredictionResponse.probability PredictionResponse.model_version
      PredictionResponse.input_features].
    rewrite (json_numbers_finite features Hfinite).
    destruct Hfw as [->|Hres]; [reflexivity|].
    destruct fw; [|reflexivity].
    rewrite all_finite_numbers.
    cbn [PredictionResponse.prediction PredictionResponse.probability
         PredictionResponse.input_features].
    fold (result_numbers result). rewrite Hres, Hfinite. reflexivity. }
  eexists. eexists. split; [|split].
  - erewrite app_on_around_response; [reflexivity|].
    rewrite (post_predict_unfold_on fw request features self Hm Hp Hf).
    unfold main.exception_middleware, main.handling_exceptions, try_except, bind,
      parse_body, main.predict, get.
    rewrite Hf, (validate_features_accepts features Hlen). cbn -[model_loader.predict].
    rewrite Hloaded. cbn -[model_loader.predict serialize_response]. unfold bind.
    rewrite Hpredict. cbn -[serialize_response]. rewrite Hbody. reflexivity.
  - reflexivity.
  - reflexivity.
Qed.

Lemma predict_echoes_finite_features_witness :
  exists resp l,
    main.app_on Refused samples.noon (samples.post_predict tests.valid_features)
      (samples.holding samples.forest "demo")
      = (inr resp, samples.holding samples.forest "demo", l) /\
    status_code resp = 200%Z /\
    content resp =
      Predicted
        {| body_prediction :=
             json_number
               (model_loader.prediction
                  {| model_loader.prediction := 0%float;
                     model_loader.probability := Some 1%float;
                     model_loader.model_version := "demo" |});
           body_probability :=
             match model_loader.probability
                     {| model_loader.prediction := 0%float;
                        model_loader.probability := Some 1%float;
                        model_loader.model_version := "demo" |} with
             | Some x => json_number x
             | None => None
             end;
           body_model_version :=
             model_loader.model_version
               {| model_loader.prediction := 0%float;
                  model_loader.probability := Some 1%float;
                  model_loader.model_version := "demo" |};
           body_input_features := map Some tests.valid_features |}.
Proof.
  apply (predict_echoes_finite_features Refused samples.noon
           (samples.post_predict tests.valid_features)
           tests.valid_features (samples.holding samples.forest "demo")
           {| model_loader.prediction := 0%float;
              model_loader.probability := Some 1%float;
              model_loader.model_version := "demo" |});
    [reflexivity | reflexivity | reflexivity | reflexivity | vm_compute; reflexivity
    | reflexivity | reflexivity | right; vm_compute; reflexivity].
Defined.

End Endpoints.

Section Observability.
Import schemas.

(** C4: a GET on [/health] is always answered 200. The body says
    [model_loaded] exactly as the registry is, "healthy" exactly when a
    model is held and "degraded" exactly when none is, and the version is
    absent when none is. *)
Theorem health_always_200
    (clock : main.Clock) (request_headers : list (string * string))
    (client : option string) (body : Json) (self : model_loader.ModelLoader) :
  exists resp l h,
    main.app clock
      {| method := "GET"; path := "/health"; request_headers := request_headers;
         client := client; json := body |} self = (inr resp, self, l) /\
    status_code resp = 200%Z /\
    content resp = Health h /\
    HealthCheckResponse.model_loaded h = model_loader.is_loaded self /\
    (HealthCheckResponse.status h = "healthy" <-> model_loader.is_loaded self = true) /\
    (HealthCheckResponse.status h = "degraded" <-> model_loader.is_loaded self = false) /\
    (model_loader.is_loaded self = false -> HealthCheckResponse.model_version h = None) /\
    (model_loader.is_loaded self = true ->
       HealthCheckResponse.model_version h = Some (model_loader.get_model_version self)).
Proof.
  eexists. eexists. eexists. split.
  { erewrite app_around_response; [reflexivity|].
    unfold main.exception_middleware, main.router, main.health_check, try_except, bind, get.
    cbn. reflexivity. }
  split; [reflexivity|]. split; [reflexivity|].
  cbn. destruct (model_loader.is_loaded self); cbn;
    repeat split; intros; first [reflexivity | discriminate].
Qed.

(** C6 fails on the empty list: the answer is 422 with the framework's
    list of validation failures, not 400 with VALIDATION_ERROR. *)
Lemma empty_features_counterexample :
  exists resp l,
    main.app samples.noon (samples.post_predict [])
      (samples.holding samples.forest "demo")
      = (inr resp, samples.holding samples.forest "demo", l) /\
    status_code resp = 422%Z /\
    status_code resp <> 400%Z /\
    content resp = Validation_errors ["Features list cannot be empty"] /\
    forall detail, content resp <>
      Error {| ErrorResponse.detail := detail;
               ErrorResponse.error_code := "VALIDATION_ERROR" |}.
Proof.
  eexists. eexists. split; [reflexivity|].
  cbn. repeat split; discriminate.
Qed.

(** C6, amended: the validator rejects the empty list with its own
    message, "Features list cannot be empty", not with the arity message;
    the validator runs while the request is parsed, so the answer is 422
    carrying that message, and the handler does not run. *)
Theorem empty_features_is_422
    (clock : main.Clock) (request_headers : list (string * string))
    (client : option string) (version : option (option string))
    (self : model_loader.ModelLoader) :
  validate_features [] = inl (ValueError "Features list cannot be empty") /\
  exists resp,
    main.app clock
      {| method := "POST"; path := "/predict"; request_headers := request_headers;
         client := client;
         json := {| json_features := Some []; json_model_version := version |} |} self
      = (inr resp, self,
         [(INFO, Incoming (default "unknown" (headers_get "X-Request-ID" request_headers))
                   "POST" "/predict" (default "unknown" client));
          (INFO, Outgoing (default "unknown" (headers_get "X-Request-ID" request_headers))
                   422 (main.process_time clock))]) /\
    status_code resp = 422%Z /\
    content resp = Validation_errors ["Features list cannot be empty"].
Proof.
  split; [reflexivity|].
  eexists. split; [|split].
  - erewrite app_around_response.
    2:{ unfold main.exception_middleware, main.router, try_except, bind.
        cbn. reflexivity. }
    reflexivity.
  - reflexivity.
  - reflexivity.
Qed.

(** What the registered [ValueError] handler does answer with 400 and
    VALIDATION_ERROR: a [ValueError] raised by a route itself. *)
Lemma value_error_from_a_route (message : string) (self : model_loader.ModelLoader) :
  main.exception_middleware (raise (ValueError message)) self =
    (inr (JSONResponse 400
            (Error {| ErrorResponse.detail := message;
                      ErrorResponse.error_code := "VALIDATION_ERROR" |})),
     self, [(ERROR, Validation_error message)]).
Proof. reflexivity. Qed.

(** C7 fails when the wall clock is set back between the two readings of
    [datetime.utcnow()]: the duration in [X-Process-Time] is negative. *)
Lemma process_time_counterexample :
  exists resp l,
    main.app samples.stepped_back (samples.get_health []) model_loader.fresh
      = (inr resp, model_loader.fresh, l) /\
    headers_get "X-Process-Time" (headers resp) = Some (Seconds (-1)) /\
    spec.non_negative_number (Seconds (-1)) = false.
Proof. eexists. eexists. repeat split. Qed.

(** C7, amended: every request is answered, and the answer carries
    [X-Request-ID] with the inbound value of that header when there is
    one and "unknown" otherwise, and [X-Process-Time] with the time between
    the two clock readings; that duration is not negative exactly when the
    second reading is not earlier than the first. *)
Theorem observability_headers
    (clock : main.Clock) (request : Request) (self : model_loader.ModelLoader) :
  exists resp l,
    main.app clock request self = (inr resp, self, l) /\
    headers_get "X-Request-ID" (headers resp) =
      Some (Text (match headers_get "X-Request-ID" (request_headers request) with
                  | Some inbound => inbound
                  | None => "unknown"
                  end)) /\
    headers_get "X-Process-Time" (headers resp) =
      Some (Seconds (main.second_reading clock - main.first_reading clock)) /\
    (spec.non_negative_number
       (Seconds (main.second_reading clock - main.first_reading clock)) = true
     <-> (main.first_reading clock <= main.second_reading clock)%Z).
Proof.
  destruct (call_next_responds request self) as (inner & l & Hinner).
  eexists. eexists. split; [|split; [|split]].
  - apply app_around_response, Hinner.
  - cbn [headers with_header]. apply headers_get_set.
  - cbn [headers with_header].
    rewrite headers_get_set_other by (vm_compute; discriminate).
    apply headers_get_set.
  - cbn [spec.non_negative_number]. rewrite Z.leb_le. lia.
Qed.

End Observability.

(** ** The singleton *)

Section Singleton.
Import model_loader process.










(** The tests reset the singleton by assigning the class attribute from
    outside. The construction that follows allocates a second object,
    which holds nothing, and the test's [result] is [None]. *)
Lemma test_model_not_loaded_prediction_result (w : World) :
  exists l,
    tests.test_model_not_loaded_prediction w =
      (inr (Some None),
       {| _instance := Some (length (heap w)); heap := heap w ++ [fresh] |},
       l).
Proof.
  unfold tests.test_model_not_loaded_prediction, tests.reset_singleton,
    __new__, on_object, bind, get, put.
  cbn. rewrite list_lookup_middle by reflexivity. cbn.
  rewrite insert_app_r_alt, Nat.sub_diag by reflexivity. eauto.
Qed.

(** So the reset is not one of the class's own operations: a registry
    that was loaded before it and one loaded after it hold a model each. *)
Lemma reset_allocates_a_second_registry :
  live_handles (run samples.env [Construct; Create_demo 0] initial_world).1 = 1%nat /\
  live_handles
    (state_of
       ((tests.reset_singleton ;;
         let* loader := __new__ in
         on_object loader (create_demo_model samples.env))
          (run samples.env [Construct; Create_demo 0] initial_world).1)) = 2%nat.
Proof. split; reflexivity. Qed.

End Singleton.

(** ** Loading, tagging and predicting *)

Section Loading.
Import model_loader.

(** The run of [predict], by cases on what the model does. *)
Ltac predict_cases features self :=
  unfold predict, try_except, bind, get;
  destruct (_model self) as [model|]; cbn;
  [destruct (m_predict model) as [f|]; cbn;
   [destruct (f features) as [e|label]; cbn;
    [|destruct (m_predict_proba model) as [g|]; cbn;
      [destruct (g features) as [e|p]; cbn; [|destruct label as [e|value]; cbn]
      |destruct label as [e|value]; cbn]]
   |]
  |].

Lemma predict_error_record (features : list float) (self : ModelLoader) :
  exists r l,
    predict features self = (inr r, self, l) /\
    stack.logged_error l = match r with Some _ => false | None => true end.
Proof. predict_cases features self; eauto. Qed.

(** X1: the registry's [predict] never raises and never assigns; a run
    that ends in the failure value emits exactly one record, at level
    [ERROR], and a successful run emits none. *)
Theorem predict_logs_failures (features : list float) (self : ModelLoader) :
  exists r l,
    predict features self = (inr r, self, l) /\
    match r with
    | Some _ => l = []
    | None => exists m, l = [(ERROR, m)]
    end.
Proof.
  pose (finish := fun (r : option Prediction) (l : list LogRecord) =>
          match r with
          | Some _ => l = []
          | None => exists m, l = [(ERROR, m)]
          end).
  assert (forall r l, finish r l ->
            exists r' l', (inr r, self, l) = (@inr PyExn _ r', self, l') /\ finish r' l')
    as Hdone by eauto.
  unfold predict, try_except, bind, get.
  destruct (_model self) as [model|]; cbn; [|apply Hdone; cbn; eauto].
  destruct (m_predict model) as [f|]; cbn; [|apply Hdone; cbn; eauto].
  destruct (f features) as [e|label]; cbn; [apply Hdone; cbn; eauto|].
  destruct (m_predict_proba model) as [g|]; cbn.
  - destruct (g features) as [e|p]; cbn; [apply Hdone; cbn; eauto|].
    destruct label as [e|value]; cbn; apply Hdone; cbn; eauto.
  - destruct label as [e|value]; cbn; apply Hdone; cbn; eauto.
Qed.

(** X2: after [load_sklearn_model] the registry holds what the artifact
    unpickled to, and what it held before when there was no such object.
    The call reports success exactly when the artifact unpickled, also
    when it unpickled to [None]: then the call returns [True] and the
    registry is not loaded. *)
Theorem load_sklearn_model_effect (env : Env) (model_path : string) (self : ModelLoader) :
  _model (state_of (load_sklearn_model env model_path self)) =
    match fs env model_path with
    | Artifact (inr o) _ => o
    | _ => _model self
    end /\
  (result_of (load_sklearn_model env model_path self) = inr true <->
     exists o sd, fs env model_path = Artifact (inr o) sd) /\
  (forall sd, fs env model_path = Artifact (inr None) sd ->
     result_of (load_sklearn_model env model_path self) = inr true /\
     is_loaded (state_of (load_sklearn_model env model_path self)) = false).
Proof.
  unfold load_sklearn_model, try_except, bind.
  destruct (fs env model_path) as [|[e|o] sd] eqn:Hfile; cbn.
  - split; [reflexivity|]. split; [|discriminate].
    split; [discriminate | intros (o & sd & H); discriminate].
  - split; [reflexivity|]. split; [|discriminate].
    split; [discriminate | intros (o & sd' & H); discriminate].
  - split; [reflexivity|]. split; [split; eauto|].
    intros sd' [= -> _]. split; reflexivity.
Qed.

(** X3: [load_pytorch_model] returns a boolean, never raises and leaves
    the version tag alone. It succeeds exactly when torch imports, the path
    exists, the class constructs and the checkpoint loads. It assigns the
    new module before the checkpoint is read: when the checkpoint fails the
    call returns [False] and the registry holds the new module all the
    same. With no torch, no file or a failing constructor nothing is
    assigned. *)
Theorem load_pytorch_model_effect
    (env : Env) (model_path : string) (model_class : PyExn + Model) (self : ModelLoader) :
  exists ok : bool,
    result_of (load_pytorch_model env model_path model_class self) = inr ok /\
    get_model_version (state_of (load_pytorch_model env model_path model_class self))
      = get_model_version self /\
    (ok = true <->
       exists u m, import_torch env = inr tt /\
                   fs env model_path = Artifact u (inr tt) /\
                   model_class = inr m) /\
    (forall u e m,
       import_torch env = inr tt -> fs env model_path = Artifact u (inl e) ->
       model_class = inr m ->
       ok = false /\
       _model (state_of (load_pytorch_model env model_path model_class self)) = Some m) /\
    ((exists e, import_torch env = inl e) \/ fs env model_path = NoFile \/
     (exists e, model_class = inl e) ->
     ok = false /\ state_of (load_pytorch_model env model_path model_class self) = self).
Proof.
  unfold load_pytorch_model, try_except, bind.
  destruct (import_torch env) as [e0|[]] eqn:Himport; cbn.
  { exists false. split; [reflexivity|]. split; [reflexivity|]. split; [|split].
    - split; [discriminate | intros (u & m & H & _); discriminate].
    - intros u e m H. discriminate.
    - intros _. split; reflexivity. }
  destruct (fs env model_path) as [|u sd] eqn:Hfile; cbn.
  { exists false. split; [reflexivity|]. split; [reflexivity|]. split; [|split].
    - split; [discriminate | intros (u & m & _ & H & _); discriminate].
    - intros u e m _ H. discriminate.
    - intros _. split; reflexivity. }
  destruct model_class as [e1|m] eqn:Hclass; cbn.
  { exists false. split; [reflexivity|]. split; [reflexivity|]. split; [|split].
    - split; [discriminate | intros (u' & m & _ & _ & H); discriminate].
    - intros u' e m _ _ H. discriminate.
    - intros _. split; reflexivity. }
  destruct sd as [e2|[]]; cbn.
  - exists false. split; [reflexivity|]. split; [reflexivity|]. split; [|split].
    + split; [discriminate | intros (u' & m' & _ & H & _); discriminate].
    + intros u' e m' _ _ [= <-]. split; reflexivity.
    + intros [(e & H)|[H|(e & H)]]; discriminate.
  - exists true. split; [reflexivity|]. split; [reflexivity|]. split; [|split].
    + split; [intros _; eauto | reflexivity].
    + intros u' e m' _ H. discriminate.
    + intros [(e & H)|[H|(e & H)]]; discriminate.
Qed.

(** X4: [create_demo_model] returns a boolean and never raises. When the
    classifier trains the registry holds it, is loaded and is tagged
    "demo", whatever it held before; when training raises the call returns
    [False] and the registry is as it was. *)
Theorem create_demo_model_effect (env : Env) (self : ModelLoader) :
  exists ok : bool,
    result_of (create_demo_model env self) = inr ok /\
    (forall m, demo_training env = inr m ->
       ok = true /\
       state_of (create_demo_model env self) = samples.holding m "demo" /\
       is_loaded (state_of (create_demo_model env self)) = true /\
       get_model_version (state_of (create_demo_model env self)) = "demo") /\
    (forall e, demo_training env = inl e ->
       ok = false /\ state_of (create_demo_model env self) = self).
Proof.
  unfold create_demo_model, try_except, bind.
  destruct (demo_training env) as [e|m]; cbn.
  - exists false. split; [reflexivity|]. split.
    + intros m H. discriminate.
    + intros e' _. split; reflexivity.
  - exists true. split; [reflexivity|]. split.
    + intros m' [= <-]. repeat split.
    + intros e H. discriminate.
Qed.

(** X5: [set_model_version] then [get_model_version] gives the version
    back. The call does not touch the model, and a prediction made
    afterwards is the one that would have been made before, reported under
    the new version. *)
Theorem set_model_version_round_trip
    (version : string) (features : list float) (self : ModelLoader) :
  result_of (set_model_version version self) = inr tt /\
  get_model_version (state_of (set_model_version version self)) = version /\
  _model (state_of (set_model_version version self)) = _model self /\
  is_loaded (state_of (set_model_version version self)) = is_loaded self /\
  result_of (predict features (state_of (set_model_version version self))) =
    match result_of (predict features self) with
    | inr (Some p) =>
        inr (Some {| prediction := prediction p;
                     probability := probability p;
                     model_version := version |})
    | other => other
    end.
Proof.
  repeat split.
  unfold predict, try_except, bind, get, set_model_version, set_version, put.
  cbn. unfold _model. cbn.
  destruct (default cls_model (dict_model self)) as [model|]; cbn; [|reflexivity].
  destruct (m_predict model) as [f|]; cbn; [|reflexivity].
  destruct (f features) as [e|label]; cbn; [reflexivity|].
  destruct (m_predict_proba model) as [g|]; cbn.
  - destruct (g features) as [e|p]; cbn; [reflexivity|].
    destruct label as [e|value]; reflexivity.
  - destruct label as [e|value]; reflexivity.
Qed.

End Loading.

(** ** The prediction endpoint as a whole *)

Section PredictEndpoint.
Import schemas.

(** X6: the validator looks at the length only. It accepts exactly the
    lists of four elements and hands them back unchanged, whatever the
    numbers are; it rejects the empty list with the emptiness message and
    every other length with the arity message. *)
Theorem validate_features_characterised (v : list float) :
  (validate_features v = inr v <-> length v = 4%nat) /\
  (forall w, validate_features v = inr w -> w = v) /\
  (validate_features v = inl (ValueError "Features list cannot be empty") <-> v = []) /\
  (validate_features v = inl (ValueError "Expected exactly 4 features") <->
     v <> [] /\ length v <> 4%nat).
Proof.
  destruct v as [|x v]; cbn.
  - split; [split; discriminate|]. split; [discriminate|].
    split; [split; reflexivity|].
    split; [discriminate | intros [H _]; congruence].
  - destruct (Nat.eqb_spec (length v) 3) as [Heq|Hne]; cbn.
    + split; [split; [lia | reflexivity]|]. split; [congruence|].
      split; [split; discriminate|].
      split; [discriminate | intros [_ H]; lia].
    + split; [split; [discriminate | lia]|]. split; [discriminate|].
      split; [split; discriminate|].
      split; [intros _; split; [discriminate | lia] | reflexivity].
Qed.

Lemma logged_error_cons (record : LogRecord) (l : list LogRecord) :
  stack.logged_error (record :: l) =
    match record.1 with ERROR => true | _ => false end || stack.logged_error l.
Proof. reflexivity. Qed.

Lemma logged_error_app (l1 l2 : list LogRecord) :
  stack.logged_error (l1 ++ l2) = stack.logged_error l1 || stack.logged_error l2.
Proof. apply existsb_app. Qed.

Lemma serialize_response_renders (fw : Rendering) (p : PredictionResponse.t) :
  (stack.renders fw (numbers_of p) = true /\
   exists body, serialize_response fw p = inr body) \/
  (stack.renders fw (numbers_of p) = false /\
   serialize_response fw p = inl out_of_range).
Proof.
  unfold serialize_response, stack.renders.
  destruct fw; [|eauto].
  destruct (all_finite (numbers_of p)); eauto.
Qed.

(** What the layers below the logging middleware make of such a request:
    the status by cases, and an [ERROR] record exactly with 400, 503 and
    500. *)
Lemma posting_outcome fw request_headers client features version self :
  exists resp l,
    main.exception_middleware
      (main.router_on fw (stack.posting request_headers client features version)) self
      = (inr resp, self, l) /\
    status_code resp =
      (if negb (length features =? 4)%nat then
         if all_finite features then 422 else 400
       else if negb (model_loader.is_loaded self) then 503
       else match result_of (model_loader.predict features self) with
            | inr (Some result) =>
                if stack.renders fw (result_numbers result ++ features)
                then 200 else 400
            | _ => 500
            end)%Z /\
    stack.logged_error l =
      ((status_code resp =? 400) || (status_code resp =? 503)
       || (status_code resp =? 500))%Z.
Proof.
  destruct (Nat.eqb_spec (length features) 4) as [Hlen|Hlen]; cbn [negb].
  - rewrite (post_predict_unfold_on fw
               (stack.posting request_headers client features version)
               features self eq_refl eq_refl eq_refl).
    unfold stack.posting, main.exception_middleware, main.handling_exceptions,
      try_except, parse_body.
    cbn -[validate_features model_loader.predict serialize_response stack.renders result_numbers app].
    rewrite (validate_features_accepts features Hlen).
    unfold bind, main.predict, get. cbn -[model_loader.predict serialize_response stack.renders result_numbers app].
    destruct (model_loader.is_loaded self);
      cbn -[model_loader.predict serialize_response stack.renders result_numbers app];
      [|do 2 eexists; split; [reflexivity|]; split; reflexivity].
    destruct (predict_error_record features self) as (r & l & Hp & Hl).
    unfold bind. rewrite Hp. cbn -[serialize_response stack.renders result_numbers app].
    destruct r as [result|]; cbn -[serialize_response stack.renders result_numbers app].
    + match goal with
      | |- context [serialize_response fw ?p] =>
          destruct (serialize_response_renders fw p) as [[Hr [body Hb]]|[Hr Hb]];
          rewrite Hb; change (numbers_of p) with (result_numbers result ++ features) in Hr
      end; rewrite Hr; cbn -[app];
        (do 2 eexists; split; [reflexivity|]; split; [reflexivity|]);
        rewrite ?logged_error_cons, ?logged_error_app, Hl; reflexivity.
    + do 2 eexists. split; [reflexivity|]. split; [reflexivity|].
      rewrite ?logged_error_cons, ?logged_error_app, Hl. reflexivity.
  - destruct (validate_features_rejects features Hlen) as [message Hv].
    rewrite (rejected_features_outcome fw
               (stack.posting request_headers client features version)
               features message self eq_refl eq_refl eq_refl Hv).
    destruct (all_finite features);
      do 2 eexists; split; [reflexivity| |reflexivity|]; split; reflexivity.
Qed.

Lemma logged_error_bracket first l last :
  stack.logged_error ((INFO, first) :: l ++ [(INFO, last)]) = stack.logged_error l.
Proof.
  unfold stack.logged_error. cbn. rewrite existsb_app. cbn.
  rewrite !orb_false_r. reflexivity.
Qed.


(** X8: the [model_version] of a request is read and then never used: two
    requests that differ in it only get the same response, leave the same
    registry and write the same log. *)
Theorem model_version_is_ignored
    (clock : main.Clock) (request_headers : list (string * string))
    (client : option string) (features : list float)
    (version version' : option (option string)) (self : model_loader.ModelLoader) :
  main.app clock (stack.posting request_headers client features version) self =
  main.app clock (stack.posting request_headers client features version') self.
Proof.
  unfold main.app, main.app_on, main.server_error_middleware, main.log_requests,
    main.exception_middleware, main.handling_exceptions, main.router_on,
    stack.posting, try_except, bind, parse_body.
  cbn -[validate_features model_loader.predict serialize_response].
  destruct (validate_features features) as [e|v]; reflexivity.
Qed.

(** X9: a POST to [/predict] writes a record of level [ERROR] exactly when
    it is answered 400, 503 or 500, on either kind of framework. A 422 and
    a 200 leave no such record. *)
Theorem errors_are_logged
    (fw : Rendering) (clock : main.Clock) (request_headers : list (string * string))
    (client : option string) (features : list float)
    (version : option (option string)) (self : model_loader.ModelLoader) :
  let outcome :=
    main.app_on fw clock (stack.posting request_headers client features version) self in
  stack.logged_error (log_of outcome) = true <->
    answered (result_of outcome) = Some 400%Z \/
    answered (result_of outcome) = Some 503%Z \/
    answered (result_of outcome) = Some 500%Z.
Proof.
  cbn zeta.
  destruct (posting_outcome fw request_headers client features version self)
    as (resp & l & Hinner & _ & Hlog).
  rewrite (app_on_around_response fw clock _ self resp self l Hinner).
  unfold log_of, result_of. cbn [fst snd answered with_header status_code].
  rewrite logged_error_bracket, Hlog.
  rewrite !orb_true_iff, !Z.eqb_eq.
  split.
  - intros [[H|H]|H]; rewrite H; auto.
  - intros [H|[H|H]]; injection H as H; auto.
Qed.

(** X10: a registry can be healthy and still fail every prediction. With
    a model held that has no [predict] attribute, as a PyTorch module has
    none, [/health] reports "healthy" and a well-formed POST to [/predict]
    is answered 500. *)
Theorem healthy_yet_failing
    (clock : main.Clock) (request_headers : list (string * string))
    (client : option string) (features : list float)
    (version : option (option string)) (self : model_loader.ModelLoader) (m : Model) :
  model_loader._model self = Some m ->
  m_predict m = None ->
  length features = 4%nat ->
  (exists resp l h,
     main.app clock (samples.get_health request_headers) self = (inr resp, self, l) /\
     content resp = Health h /\
     HealthCheckResponse.status h = "healthy") /\
  (exists resp l,
     main.app clock (stack.posting request_headers client features version) self
       = (inr resp, self, l) /\
     status_code resp = 500%Z /\
     content resp = Detail "Error during prediction. Check logs for details.").
Proof.
  intros Hm Hpredict Hlen.
  assert (model_loader.is_loaded self = true) as Hloaded
    by (unfold model_loader.is_loaded; rewrite Hm; reflexivity).
  split.
  - eexists. eexists. eexists. split; [|split].
    + erewrite app_around_response; [reflexivity|].
      unfold main.exception_middleware, main.router, main.health_check,
        try_except, bind, get. cbn. reflexivity.
    + reflexivity.
    + cbn. rewrite Hloaded. reflexivity.
  - eexists. eexists. split; [|split].
    + erewrite app_around_response; [reflexivity|].
      rewrite (post_predict_unfold
                 (stack.posting request_headers client features version)
                 features self eq_refl eq_refl eq_refl).
      unfold stack.posting, main.exception_middleware, main.handling_exceptions,
        try_except, parse_body.
      cbn -[validate_features model_loader.predict serialize_response].
      rewrite (validate_features_accepts features Hlen).
      unfold bind, main.predict, get. cbn -[model_loader.predict serialize_response].
      rewrite Hloaded. cbn -[model_loader.predict serialize_response].
      unfold bind, model_loader.predict, try_except, get, bind.
      rewrite Hm. cbn. rewrite Hpredict. cbn. reflexivity.
    + reflexivity.
    + reflexivity.
Qed.

Lemma healthy_yet_failing_witness :
  (exists resp l h,
     main.app samples.noon (samples.get_health [])
       (samples.holding samples.torch_module "v1.0.0")
       = (inr resp, samples.holding samples.torch_module "v1.0.0", l) /\
     content resp = Health h /\
     HealthCheckResponse.status h = "healthy") /\
  (exists resp l,
     main.app samples.noon (stack.posting [] None tests.valid_features None)
       (samples.holding samples.torch_module "v1.0.0")
       = (inr resp, samples.holding samples.torch_module "v1.0.0", l) /\
     status_code resp = 500%Z /\
     content resp = Detail "Error during prediction. Check logs for details.").
Proof.
  apply (healthy_yet_failing samples.noon [] None tests.valid_features None
           (samples.holding samples.torch_module "v1.0.0") samples.torch_module);
    reflexivity.
Defined.

End PredictEndpoint.

(** ** The layers, startup and the fixtures *)

Section Layers.
Import model_loader.

(** X11: serving never changes the registry. Every request, whatever its
    method, path, headers and body, is answered with a response, and the
    registry object is afterwards what it was before. *)
Theorem serving_is_read_only
    (clock : main.Clock) (request : Request) (self : ModelLoader) :
  (exists resp, result_of (main.app clock request self) = inr resp) /\
  state_of (main.app clock request self) = self.
Proof.
  destruct (call_next_responds request self) as (resp & l & Hinner).
  rewrite (app_around_response clock request self resp self l Hinner).
  split; [eexists|]; reflexivity.
Qed.

(** X12: the log of a request opens with the middleware's line for the
    request and closes with its line for the response; both carry the same
    request id, and the closing line carries the status the client gets
    and the duration the header carries. *)
Theorem access_log_brackets
    (clock : main.Clock) (request : Request) (self : ModelLoader) :
  exists resp inner,
    result_of (main.app clock request self) = inr resp /\
    log_of (main.app clock request self) =
      (INFO, Incoming (main.request_id request) (method request) (path request)
               (default "unknown" (client request)))
        :: inner ++
      [(INFO, Outgoing (main.request_id request) (status_code resp)
                (main.process_time clock))] /\
    headers_get "X-Process-Time" (headers resp) = Some (Seconds (main.process_time clock)).
Proof.
  destruct (call_next_responds request self) as (resp & l & Hinner).
  rewrite (app_around_response clock request self resp self l Hinner).
  eexists. exists l. split; [reflexivity|]. split; [reflexivity|].
  cbn [headers with_header].
  rewrite headers_get_set_other by (vm_compute; discriminate).
  apply headers_get_set.
Qed.

Lemma app_is_serve (clock : main.Clock) (request : Request) :
  main.app clock request = stack.serve clock request main.router.
Proof. reflexivity. Qed.

(** X13: an exception no inner handler knows passes the logging middleware,
    which logs it and raises it again, and ends at the handler registered
    for [Exception]: the answer is 500 with INTERNAL_ERROR and a fixed
    detail, and it carries neither [X-Request-ID] nor [X-Process-Time].
    Both layers log the exception's text at level [ERROR]. *)
Theorem unhandled_exception_is_500 {S : Type}
    (clock : main.Clock) (request : Request) (route : Request -> Py S Response)
    (s s' : S) (message : string) (l : list LogRecord) :
  route request s = (inl (OtherException message), s', l) ->
  exists resp,
    stack.serve clock request route s =
      (inr resp, s',
       (INFO, Incoming (main.request_id request) (method request) (path request)
                (default "unknown" (client request)))
         :: l ++
       [(ERROR, Error_processing (main.request_id request) message
                  (main.process_time clock));
        (ERROR, Unexpected_error message)]) /\
    status_code resp = 500%Z /\
    content resp =
      Error {| schemas.ErrorResponse.detail :=
                 "Internal server error. Check logs for details.";
               schemas.ErrorResponse.error_code := "INTERNAL_ERROR" |} /\
    headers_get "X-Request-ID" (headers resp) = None /\
    headers_get "X-Process-Time" (headers resp) = None.
Proof.
  intros Hroute. eexists. split.
  { unfold stack.serve, main.server_error_middleware, main.log_requests,
      main.exception_middleware, main.handling_exceptions,
      main.general_exception_handler, try_except, bind.
    cbn. rewrite Hroute. cbn. rewrite !app_nil_r, <- ?app_assoc. reflexivity. }
  repeat split.
Qed.

Lemma unhandled_exception_is_500_witness :
  exists resp,
    stack.serve samples.noon (samples.get_health []) more_samples.crashing_route tt =
      (inr resp, tt,
       (INFO, Incoming "unknown" "GET" "/health" "testclient")
         :: [] ++
       [(ERROR, Error_processing "unknown" "boom" 250);
        (ERROR, Unexpected_error "boom")]) /\
    status_code resp = 500%Z /\
    content resp =
      Error {| schemas.ErrorResponse.detail :=
                 "Internal server error. Check logs for details.";
               schemas.ErrorResponse.error_code := "INTERNAL_ERROR" |} /\
    headers_get "X-Request-ID" (headers resp) = None /\
    headers_get "X-Process-Time" (headers resp) = None.
Proof.
  apply (unhandled_exception_is_500 samples.noon (samples.get_health [])
           more_samples.crashing_route tt tt "boom" []).
  reflexivity.
Defined.

(** X14: a [ValueError] raised by a route is answered by the registered
    handler: 400 with VALIDATION_ERROR and the exception's text as detail,
    logged once at level [ERROR]; the answer passes the logging middleware
    and carries the request id. *)
Theorem value_error_is_400 {S : Type}
    (clock : main.Clock) (request : Request) (route : Request -> Py S Response)
    (s s' : S) (message : string) (l : list LogRecord) :
  route request s = (inl (ValueError message), s', l) ->
  exists resp,
    stack.serve clock request route s =
      (inr resp, s',
       (INFO, Incoming (main.request_id request) (method request) (path request)
                (default "unknown" (client request)))
         :: (l ++ [(ERROR, Validation_error message)]) ++
       [(INFO, Outgoing (main.request_id request) 400 (main.process_time clock))]) /\
    status_code resp = 400%Z /\
    content resp =
      Error {| schemas.ErrorResponse.detail := message;
               schemas.ErrorResponse.error_code := "VALIDATION_ERROR" |} /\
    headers_get "X-Request-ID" (headers resp) = Some (Text (main.request_id request)).
Proof.
  intros Hroute. eexists. split; [|split; [|split]].
  - unfold stack.serve, main.server_error_middleware, main.log_requests,
      main.exception_middleware, main.handling_exceptions,
      main.value_error_handler, try_except, bind.
    cbn. rewrite Hroute. cbn. reflexivity.
  - reflexivity.
  - reflexivity.
  - cbn [headers with_header]. apply headers_get_set.
Qed.

Lemma value_error_is_400_witness :
  exists resp,
    stack.serve samples.noon (samples.get_health [("x-request-id", "r-17")])
      more_samples.complaining_route tt =
      (inr resp, tt,
       (INFO, Incoming "r-17" "GET" "/health" "testclient")
         :: ([] ++ [(ERROR, Validation_error "bad value")]) ++
       [(INFO, Outgoing "r-17" 400 250)]) /\
    status_code resp = 400%Z /\
    content resp =
      Error {| schemas.ErrorResponse.detail := "bad value";
               schemas.ErrorResponse.error_code := "VALIDATION_ERROR" |} /\
    headers_get "X-Request-ID" (headers resp) = Some (Text "r-17").
Proof.
  apply (value_error_is_400 samples.noon (samples.get_health [("x-request-id", "r-17")])
           more_samples.complaining_route tt tt "bad value" []).
  reflexivity.
Defined.

End Layers.

Section Startup.
Import model_loader.

(** X15: startup never raises. With a path configured whose artifact
    unpickles, the registry holds that object and keeps the tag it had, so
    an external model is served under the old tag. With no path, an empty
    path, a missing file or an artifact that does not unpickle, the demo
    classifier is tried: when it trains the registry holds it under the
    tag "demo", and when it does not the registry is as before and the
    service comes up without a model. *)
Theorem lifespan_outcome (env : Env) (MODEL_PATH : option string) (self : ModelLoader) :
  let after := state_of (main.lifespan env MODEL_PATH self) in
  result_of (main.lifespan env MODEL_PATH self) = inr tt /\
  (forall p o sd,
     MODEL_PATH = Some p -> p <> "" -> fs env p = Artifact (inr o) sd ->
     after = {| dict_model := Some o; dict_model_version := dict_model_version self |}) /\
  (MODEL_PATH = None \/ MODEL_PATH = Some "" \/
   (exists p, MODEL_PATH = Some p /\
      (fs env p = NoFile \/ exists e sd, fs env p = Artifact (inl e) sd)) ->
   (forall m, demo_training env = inr m -> after = samples.holding m "demo") /\
   (forall e, demo_training env = inl e -> after = self)).
Proof.
  cbn zeta.
  unfold main.lifespan, load_sklearn_model, create_demo_model, try_except, bind,
    logger_info, logger_warning, logger_error.
  destruct MODEL_PATH as [p|];
    [destruct (String.eqb_spec p "") as [->|Hp];
       [|destruct (fs env p) as [|[e|o] sd] eqn:Hfile]|];
    destruct (demo_training env) as [e'|m] eqn:Hdemo; cbn;
    (split; [reflexivity|]);
    (split;
     [intros p' o' sd' Hpath Hne Hf; simplify_eq; try reflexivity; try congruence
     |intros Hcases; split; intros ? Hd; simplify_eq; try reflexivity]).
  all: destruct Hcases as [H|[H|(p' & H & [H'|(e0 & sd0 & H')])]]; congruence.
Qed.

End Startup.

Section Fixtures.
Import model_loader process.

(** X16: the session fixture resets the singleton by assigning the class
    attribute. The registry the [model_loader] fixture then constructs and
    loads is a new object: a registry constructed before, such as the one
    bound to [main.model_loader] when the application module was imported,
    is a different object and stays exactly as it was. *)
Theorem fixture_registry_is_a_new_object
    (env : Env) (w : World) (a : nat) (self_a : ModelLoader) :
  heap w !! a = Some self_a ->
  let outcome := (conftest.setup_session ;; conftest.model_loader_fixture env) w in
  exists b,
    result_of outcome = inr b /\
    b <> a /\
    _instance (state_of outcome) = Some b /\
    heap (state_of outcome) !! a = Some self_a /\
    (forall m, demo_training env = inr m ->
       heap (state_of outcome) !! b = Some (samples.holding m "demo")).
Proof.
  intros Ha. cbn zeta.
  pose proof (lookup_lt_Some _ _ _ Ha) as Hlt.
  unfold conftest.setup_session, conftest.model_loader_fixture, tests.reset_singleton,
    conftest.is_loaded_call, __new__, on_object, bind, get, put.
  cbn. rewrite list_lookup_middle by reflexivity. cbn.
  rewrite insert_app_r_alt, Nat.sub_diag by reflexivity. cbn.
  rewrite list_lookup_middle by reflexivity.
  unfold create_demo_model, try_except, bind.
  destruct (demo_training env) as [e|m]; cbn;
    rewrite insert_app_r_alt, Nat.sub_diag by reflexivity; cbn;
    exists (length (heap w));
    (split; [reflexivity|]); (split; [lia|]); (split; [reflexivity|]);
    (split; [rewrite lookup_app_l by exact Hlt; exact Ha|]).
  - intros m H. discriminate.
  - intros m' [= <-]. rewrite list_lookup_middle by reflexivity. reflexivity.
Qed.

Lemma fixture_registry_is_a_new_object_witness :
  exists b,
    result_of ((conftest.setup_session ;; conftest.model_loader_fixture samples.env)
                 {| _instance := Some 0%nat; heap := [fresh] |}) = inr b /\
    b <> 0%nat /\
    _instance (state_of ((conftest.setup_session ;; conftest.model_loader_fixture samples.env)
                           {| _instance := Some 0%nat; heap := [fresh] |})) = Some b /\
    heap (state_of ((conftest.setup_session ;; conftest.model_loader_fixture samples.env)
                      {| _instance := Some 0%nat; heap := [fresh] |})) !! 0%nat = Some fresh /\
    (forall m, demo_training samples.env = inr m ->
       heap (state_of ((conftest.setup_session ;; conftest.model_loader_fixture samples.env)
                         {| _instance := Some 0%nat; heap := [fresh] |})) !! b
         = Some (samples.holding m "demo")).
Proof.
  apply (fixture_registry_is_a_new_object samples.env
           {| _instance := Some 0%nat; heap := [fresh] |} 0%nat fresh).
  reflexivity.
Defined.

(** X17: without a reset the [model_loader] fixture hands out the
    registry that exists. A registry that is loaded is left untouched: the
    demo classifier is not trained again and a version set earlier stays.
    A registry that is not loaded gets the demo classifier and its tag,
    when it trains. *)
Theorem fixture_reuses_loaded_registry
    (env : Env) (w : World) (r : nat) (self : ModelLoader) :
  _instance w = Some r ->
  heap w !! r = Some self ->
  result_of (conftest.model_loader_fixture env w) = inr r /\
  (is_loaded self = true ->
     state_of (conftest.model_loader_fixture env w) = w /\
     log_of (conftest.model_loader_fixture env w) = []) /\
  (is_loaded self = false ->
     forall m, demo_training env = inr m ->
       heap (state_of (conftest.model_loader_fixture env w)) !! r
         = Some (samples.holding m "demo")).
Proof.
  intros Hinst Hr.
  pose proof (lookup_lt_Some _ _ _ Hr) as Hlt.
  unfold conftest.model_loader_fixture, conftest.is_loaded_call, __new__,
    on_object, bind, get, put.
  cbn. rewrite Hinst. cbn. rewrite Hr. cbn.
  rewrite (list_insert_id _ _ _ Hr).
  destruct (is_loaded self) eqn:Hloaded; cbn.
  - split; [reflexivity|]. split; [|discriminate].
    intros _. split; [|reflexivity]. destruct w. cbn in *. reflexivity.
  - rewrite Hr.
    unfold create_demo_model, try_except, bind.
    destruct (demo_training env) as [e|m]; cbn.
    + split; [reflexivity|]. split; [discriminate|]. intros _ m H. discriminate.
    + split; [reflexivity|]. split; [discriminate|].
      intros _ m' [= <-]. rewrite list_lookup_insert_eq by exact Hlt. reflexivity.
Qed.

Lemma fixture_reuses_loaded_registry_witness :
  result_of (conftest.model_loader_fixture samples.env
               {| _instance := Some 0%nat;
                  heap := [samples.holding samples.point_model "v2.0.0"] |}) = inr 0%nat /\
  (is_loaded (samples.holding samples.point_model "v2.0.0") = true ->
     state_of (conftest.model_loader_fixture samples.env
                 {| _instance := Some 0%nat;
                    heap := [samples.holding samples.point_model "v2.0.0"] |})
       = {| _instance := Some 0%nat;
            heap := [samples.holding samples.point_model "v2.0.0"] |} /\
     log_of (conftest.model_loader_fixture samples.env
               {| _instance := Some 0%nat;
                  heap := [samples.holding samples.point_model "v2.0.0"] |}) = []) /\
  (is_loaded (samples.holding samples.point_model "v2.0.0") = false ->
     forall m, demo_training samples.env = inr m ->
       heap (state_of (conftest.model_loader_fixture samples.env
                         {| _instance := Some 0%nat;
                            heap := [samples.holding samples.point_model "v2.0.0"] |}))
         !! 0%nat = Some (samples.holding m "demo")).
Proof.
  apply (fixture_reuses_loaded_registry samples.env
           {| _instance := Some 0%nat;
              heap := [samples.holding samples.point_model "v2.0.0"] |}
           0%nat (samples.holding samples.point_model "v2.0.0"));
    reflexivity.
Defined.

End Fixtures.

(** ** Either kind of framework *)

Section Kinds.
Import schemas.

(** The kind of framework enters only when a prediction succeeded and its
    response holds a number that is not finite: for every other request
    the two stacks do the same. *)
Lemma kind_enters_only_with_non_finite_results
    (fw : Rendering) (clock : main.Clock) (request : Request)
    (self : model_loader.ModelLoader) :
  main.app_on fw clock request self = main.app clock request self \/
  exists parsed p l,
    parse_body (json request) = inr parsed /\
    main.predict parsed self = (inr p, self, l) /\
    all_finite (numbers_of p) = false.
Proof.
  assert (main.router_on fw request self = main.router request self \/
          exists parsed p l,
            parse_body (json request) = inr parsed /\
            main.predict parsed self = (inr p, self, l) /\
            all_finite (numbers_of p) = false) as [Hsame|Hdiffer].
  { unfold main.router, main.router_on.
    destruct (String.eqb (path request) "/health"); [left; reflexivity|].
    destruct (String.eqb (path request) "/predict"); [|left; reflexivity].
    destruct (String.eqb (method request) "POST"); [|left; reflexivity].
    unfold bind.
    destruct (parse_body (json request)) as [e|parsed];
      cbn -[serialize_response main.predict]; [left; reflexivity|].
    destruct (main_predict_outcome parsed self) as [(p & l & Hp)|(c & d & l & Hp)];
      rewrite Hp; [|left; reflexivity].
    destruct (all_finite (numbers_of p)) eqn:Hfinite;
      [|right; exists parsed, p, l; repeat split; assumption].
    left.
    assert (serialize_response fw p = serialize_response Refused p) as ->
      by (unfold serialize_response; rewrite Hfinite; destruct fw; reflexivity).
    reflexivity. }
  - left. unfold main.app, main.app_on, main.server_error_middleware, main.log_requests,
      main.exception_middleware, main.handling_exceptions, try_except, bind.
    cbn. fold main.router. rewrite Hsame. reflexivity.
  - right. exact Hdiffer.
Qed.

(** On either kind every request is answered, the registry is left as it
    was, the log is bracketed by the middleware's two lines and the answer
    carries both headers. *)
Lemma serving_on
    (fw : Rendering) (clock : main.Clock) (request : Request)
    (self : model_loader.ModelLoader) :
  exists resp inner,
    main.app_on fw clock request self =
      (inr resp, self,
       (INFO, Incoming (main.request_id request) (method request) (path request)
                (default "unknown" (client request)))
         :: inner ++
       [(INFO, Outgoing (main.request_id request) (status_code resp)
                 (main.process_time clock))]) /\
    headers_get "X-Request-ID" (headers resp) = Some (Text (main.request_id request)) /\
    headers_get "X-Process-Time" (headers resp) = Some (Seconds (main.process_time clock)).
Proof.
  destruct (call_next_responds_on fw request self) as (resp & l & Hinner).
  rewrite (app_on_around_response fw clock request self resp self l Hinner).
  exists (with_header "X-Request-ID" (Text (main.request_id request))
            (with_header "X-Process-Time" (Seconds (main.process_time clock)) resp)), l.
  split; [reflexivity|]. cbn [headers with_header]. split.
  - apply headers_get_set.
  - rewrite headers_get_set_other by (vm_compute; discriminate).
    apply headers_get_set.
Qed.

End Kinds.
